(** * xknx.usb.knx_hid_frame: the KNX USB HID report codec

    A shallow embedding of [xknx/usb/knx_hid_frame.py].  Python objects become
    records, [bytes] become lists of [Byte.byte], Python [int]s become [Z].
    Every method runs in a small monad [py] that carries the two effects the
    module has: records sent to the [logging] loggers and exceptions that
    unwind to the caller. *)

From Stdlib Require Import ZArith List Bool Lia.
From Stdlib.Strings Require Import Byte.
Import ListNotations.
Open Scope Z_scope.

(** ** The Python runtime pieces the module relies on *)

(** Exceptions that the code of this module can let escape. *)
Inductive exn : Type :=
| IndexError      (* indexing [bytes] out of range *)
| ValueError      (* calling an [Enum] class on an unmapped value *)
| StructError     (* [struct.pack] given a value outside the field *)
| AttributeError. (* a method called on [None] *)

Inductive result (A : Type) : Type :=
| Ok (a : A)
| Raise (e : exn).
Arguments Ok {A} a.
Arguments Raise {A} e.

Inductive level : Type := WARNING | ERROR.

(** The log sites of the module; the numbers are the [len(data)] that the
    f-strings print.  [Other] is for records written by collaborators. *)
Inductive message : Type :=
| PacketInfoLength (received : nat)
| ReportHeaderLength (received : nat)
| ReportIdNotOne
| ReportBodyLength (received : nat)
| FrameLength (received : nat)
| Other (code : nat).

Record log_record : Type := LogRecord { levelno : level; msg : message }.

(** A computation: the records it logged, in order, and how it ended. *)
Definition py (A : Type) : Type := (list log_record * result A)%type.

Definition ret {A} (a : A) : py A := ([], Ok a).
Definition raise {A} (e : exn) : py A := ([], Raise e).
Definition bind {A B} (m : py A) (k : A -> py B) : py B :=
  match m with
  | (l, Ok a) => let '(l', r) := k a in (l ++ l', r)
  | (l, Raise e) => (l, Raise e)
  end.
Definition logger_error (m : message) : py unit := ([LogRecord ERROR m], Ok tt).
Definition logger_warning (m : message) : py unit := ([LogRecord WARNING m], Ok tt).

Notation "x <- m ;; k" := (bind m (fun x => k))
  (at level 61, m at next level, right associativity).
Notation "m ;;; k" := (bind m (fun _ => k))
  (at level 61, right associativity).

Definition logged {A} (m : py A) : list log_record := fst m.
Definition outcome {A} (m : py A) : result A := snd m.

(** [bytes] and the operations used on them. *)
Definition bytes : Type := list byte.

Definition int_of_byte (b : byte) : Z := Z.of_N (Byte.to_N b).

(** [data[i]] *)
Definition getitem (data : bytes) (i : nat) : py Z :=
  match nth_error data i with
  | Some b => ret (int_of_byte b)
  | None => raise IndexError
  end.

(** [data[lo:hi]], [data[:hi]] and [data[lo:]] *)
Definition slice (lo hi : nat) (data : bytes) : bytes := firstn (hi - lo) (skipn lo data).
Definition slice_to (hi : nat) (data : bytes) : bytes := firstn hi data.
Definition slice_from (lo : nat) (data : bytes) : bytes := skipn lo data.

(** One field of format [B] of [struct.pack]. *)
Definition pack_B (v : Z) : py byte :=
  if (0 <=? v) && (v <=? 255) then
    match Byte.of_N (Z.to_N v) with
    | Some b => ret b
    | None => raise StructError
    end
  else raise StructError.

(** One field of format [1s]: the first byte, or a null byte when there is none. *)
Definition pack_1s (s : bytes) : byte :=
  match s with
  | b :: _ => b
  | [] => x00
  end.

(** An [Enum] class of [knx_hid_datatypes], which is not among the sources of
    this module: the class is a parameter.  [lookup v] is the call [E(v)],
    where [None] stands for the [ValueError] of an unmapped value; [truthy]
    is [bool(member)]. *)
Class PyEnum (E : Type) : Type := {
  value : E -> Z;
  lookup : Z -> option E;
  truthy : E -> bool
}.

Definition call_enum {E} `{PyEnum E} (v : Z) : py E :=
  match lookup v with
  | Some e => ret e
  | None => raise ValueError
  end.

(** Truthiness of an [Optional] attribute. *)
Definition is_set {A} (t : A -> bool) (o : option A) : bool :=
  match o with
  | Some a => t a
  | None => false
  end.

(** ** PacketInfo *)

Module PacketInfo.
Section WithEnums.
Context {SequenceNumber PacketType : Type}.
Context {SN : PyEnum SequenceNumber} {PT : PyEnum PacketType}.

Record PacketInfoData : Type := {
  data_sequence_number : SequenceNumber;
  data_packet_type : PacketType
}.

Record t : Type := {
  _sequence_number : option SequenceNumber;
  _packet_type : option PacketType
}.

Definition __init__ : t :=
  {| _sequence_number := None; _packet_type := None |}.

Definition from_data (data : PacketInfoData) : t :=
  {| _sequence_number := Some (data_sequence_number data);
     _packet_type := Some (data_packet_type data) |}.

Definition with_sequence_number (self : t) (sn : SequenceNumber) : t :=
  {| _sequence_number := Some sn; _packet_type := _packet_type self |}.
Definition with_packet_type (self : t) (pt : PacketType) : t :=
  {| _sequence_number := _sequence_number self; _packet_type := Some pt |}.

Definition _init (self : t) (data : bytes) : py t :=
  if negb (length data =? 1)%nat then
    logger_error (PacketInfoLength (length data)) ;;;
    ret self
  else
    b0 <- getitem data 0 ;;
    sn <- call_enum (Z.shiftr b0 4) ;;
    let self := with_sequence_number self sn in
    b0 <- getitem data 0 ;;
    pt <- call_enum (Z.land b0 15) ;;
    ret (with_packet_type self pt).

Definition from_knx (data : bytes) : py t := _init __init__ data.

Definition to_knx (self : t) : py bytes :=
  if is_set truthy (_sequence_number self) && is_set truthy (_packet_type self) then
    match _sequence_number self, _packet_type self with
    | Some sn, Some pt =>
        b <- pack_B (Z.lor (Z.shiftl (value sn) 4) (value pt)) ;;
        ret [b]
    | _, _ => raise AttributeError
    end
  else ret [].

Definition sequence_number (self : t) : option SequenceNumber := _sequence_number self.
Definition packet_type (self : t) : option PacketType := _packet_type self.
End WithEnums.
Arguments PacketInfoData : clear implicits.
Arguments t : clear implicits.
End PacketInfo.

(** ** KNXHIDReportHeader *)

Module KNXHIDReportHeader.
Section WithEnums.
Context {SequenceNumber PacketType : Type}.
Context {SN : PyEnum SequenceNumber} {PT : PyEnum PacketType}.

Record KNXHIDReportHeaderData : Type := {
  data_packet_info : PacketInfo.t SequenceNumber PacketType;
  data_data_length : Z
}.

Record t : Type := {
  _report_id : Z;
  _packet_info : option (PacketInfo.t SequenceNumber PacketType);
  _data_length : Z;
  _max_expected_data_length : Z;
  _valid : bool
}.

Definition __init__ : t :=
  {| _report_id := 1; _packet_info := None; _data_length := 0;
     _max_expected_data_length := 61; _valid := false |}.

Definition with_report_id (self : t) (v : Z) : t :=
  {| _report_id := v; _packet_info := _packet_info self;
     _data_length := _data_length self;
     _max_expected_data_length := _max_expected_data_length self;
     _valid := _valid self |}.
Definition with_packet_info (self : t) (p : PacketInfo.t SequenceNumber PacketType) : t :=
  {| _report_id := _report_id self; _packet_info := Some p;
     _data_length := _data_length self;
     _max_expected_data_length := _max_expected_data_length self;
     _valid := _valid self |}.
Definition with_data_length (self : t) (n : Z) : t :=
  {| _report_id := _report_id self; _packet_info := _packet_info self;
     _data_length := n;
     _max_expected_data_length := _max_expected_data_length self;
     _valid := _valid self |}.
Definition with_valid (self : t) (v : bool) : t :=
  {| _report_id := _report_id self; _packet_info := _packet_info self;
     _data_length := _data_length self;
     _max_expected_data_length := _max_expected_data_length self;
     _valid := v |}.

Definition from_data (data : KNXHIDReportHeaderData) : t :=
  let obj := __init__ in
  let obj := with_packet_info obj (data_packet_info data) in
  if data_data_length data <=? _max_expected_data_length obj then
    let obj := with_data_length obj (data_data_length data) in
    with_valid obj true
  else obj.

Definition _init (self : t) (data : bytes) : py t :=
  if Z.of_nat (length data) >? _max_expected_data_length self then
    logger_error (ReportHeaderLength (length data)) ;;;
    ret self
  else
    b0 <- getitem data 0 ;;
    let self := with_report_id self b0 in
    p <- PacketInfo.from_knx (slice 1 2 data) ;;
    let self := with_packet_info self p in
    b2 <- getitem data 2 ;;
    let self := with_data_length self b2 in
    if _report_id self =? 1 then ret (with_valid self true) else ret self.

Definition from_knx (data : bytes) : py t := _init __init__ data.

Definition to_knx (self : t) : py bytes :=
  if _valid self then
    match _packet_info self with
    | Some p =>
        s <- PacketInfo.to_knx p ;;
        b0 <- pack_B (_report_id self) ;;
        b2 <- pack_B (_data_length self) ;;
        ret [b0; pack_1s s; b2]
    | None => raise AttributeError
    end
  else ret [].

Definition report_id (self : t) : Z := _report_id self.

Definition set_report_id (self : t) (v : Z) : py t :=
  (if negb (v =? 1) then logger_warning ReportIdNotOne else ret tt) ;;;
  ret (with_report_id self v).

Definition packet_info (self : t) : option (PacketInfo.t SequenceNumber PacketType) :=
  _packet_info self.
Definition data_length (self : t) : Z := _data_length self.
Definition is_valid (self : t) : bool := _valid self.
End WithEnums.
Arguments KNXHIDReportHeaderData : clear implicits.
Arguments t : clear implicits.
End KNXHIDReportHeader.

(** ** The transfer protocol layer, [knx_hid_transfer]

    [KNXUSBTransferProtocolHeader] and [KNXUSBTransferProtocolBody] are
    defined in a module that is not among the sources read here.  The report
    body and the frame only call them, so they are taken as parameters: every
    method that the code below calls is a field, may log and may raise.
    [*_truthy] is [bool(obj)], the test that [if self._header and self._body]
    performs. *)

Class TransferHeader (ProtocolID EMIID H : Type) : Type := {
  (* KNXUSBTransferProtocolHeader.from_data(
       KNXUSBTransferProtocolHeaderData(body_length, protocol_id, emi_id)) *)
  header_from_data : Z -> ProtocolID -> EMIID -> py H;
  header_from_knx : bytes -> py H;
  header_to_knx : H -> py bytes;
  header_is_valid : H -> bool;
  header_header_length : H -> Z;
  header_truthy : H -> bool
}.

Class TransferBody (B : Type) : Type := {
  (* KNXUSBTransferProtocolBody.from_data(
       KNXUSBTransferProtocolBodyData(emi_data, partial)) *)
  body_from_data : bytes -> bool -> py B;
  body_from_knx : bytes -> py B;
  body_to_knx : B -> bool -> py bytes;
  body_is_valid : B -> bool;
  body_length : B -> Z;
  body_truthy : B -> bool
}.

(** ** KNXHIDReportBody *)

Module KNXHIDReportBody.
Section WithTransfer.
Context {ProtocolID EMIID H B : Type}.
Context {TH : TransferHeader ProtocolID EMIID H} {TB : TransferBody B}.

Record KNXHIDReportBodyData : Type := {
  data_protocol_id : ProtocolID;
  data_emi_id : EMIID;
  data_emi_data : bytes;
  data_partial : bool
}.

Record t : Type := {
  _max_size : Z;
  _header : option H;
  _body : option B;
  _is_valid : bool;
  _partial : bool
}.

Definition __init__ : t :=
  {| _max_size := 61; _header := None; _body := None;
     _is_valid := false; _partial := false |}.

Definition with_header (self : t) (h : H) : t :=
  {| _max_size := _max_size self; _header := Some h; _body := _body self;
     _is_valid := _is_valid self; _partial := _partial self |}.
Definition with_body (self : t) (b : B) : t :=
  {| _max_size := _max_size self; _header := _header self; _body := Some b;
     _is_valid := _is_valid self; _partial := _partial self |}.
Definition with_is_valid (self : t) (v : bool) : t :=
  {| _max_size := _max_size self; _header := _header self; _body := _body self;
     _is_valid := v; _partial := _partial self |}.
Definition with_partial (self : t) (p : bool) : t :=
  {| _max_size := _max_size self; _header := _header self; _body := _body self;
     _is_valid := _is_valid self; _partial := p |}.

Definition from_data (data : KNXHIDReportBodyData) : py t :=
  let obj := __init__ in
  b <- body_from_data (data_emi_data data) (data_partial data) ;;
  let obj := with_body obj b in
  if data_partial data then
    ret (with_is_valid obj (body_is_valid b))
  else
    h <- header_from_data (body_length b) (data_protocol_id data) (data_emi_id data) ;;
    let obj := with_header obj h in
    ret (with_is_valid obj (header_is_valid h && body_is_valid b)).

Definition _init (self : t) (data : bytes) (partial : bool) : py t :=
  if negb (Z.of_nat (length data) =? _max_size self) then
    logger_error (ReportBodyLength (length data)) ;;;
    ret self
  else
    let self := with_partial self partial in
    if _partial self then
      b <- body_from_knx data ;;
      let self := with_body self b in
      ret (with_is_valid self (body_is_valid b))
    else
      h <- header_from_knx (slice_to 8 data) ;;
      let self := with_header self h in
      b <- body_from_knx (slice_from 8 data) ;;
      let self := with_body self b in
      ret (with_is_valid self (header_is_valid h && body_is_valid b)).

Definition from_knx (data : bytes) (partial : bool) : py t :=
  _init __init__ data partial.

Definition to_knx (self : t) : py bytes :=
  if is_set header_truthy (_header self) && is_set body_truthy (_body self) then
    match _header self, _body self with
    | Some h, Some b =>
        hs <- header_to_knx h ;;
        bs <- body_to_knx b (_partial self) ;;
        ret (hs ++ bs)
    | _, _ => raise AttributeError
    end
  else ret [].

Definition transfer_protocol_header (self : t) : option H := _header self.
Definition transfer_protocol_body (self : t) : option B := _body self.

Definition length (self : t) : Z :=
  if _partial self && is_set body_truthy (_body self) then
    match _body self with
    | Some b => body_length b
    | None => 0
    end
  else if is_set header_truthy (_header self) && is_set body_truthy (_body self) then
    match _header self, _body self with
    | Some h, Some b => header_header_length h + body_length b
    | _, _ => 0
    end
  else 0.

Definition is_valid (self : t) : bool := _is_valid self.
End WithTransfer.
Arguments KNXHIDReportBodyData : clear implicits.
Arguments t : clear implicits.
End KNXHIDReportBody.

(** ** KNXHIDFrame *)

Module KNXHIDFrame.
Section WithCollaborators.
Context {SequenceNumber PacketType : Type}.
Context {SN : PyEnum SequenceNumber} {PT : PyEnum PacketType}.
Context {ProtocolID EMIID H B : Type}.
Context {TH : TransferHeader ProtocolID EMIID H} {TB : TransferBody B}.

Record KNXHIDFrameData : Type := {
  data_packet_info : PacketInfo.t SequenceNumber PacketType;
  data_hid_report_body_data : KNXHIDReportBody.KNXHIDReportBodyData ProtocolID EMIID
}.

Record t : Type := {
  _body : option (KNXHIDReportBody.t H B);
  _expected_byte_count : Z;
  _header : option (KNXHIDReportHeader.t SequenceNumber PacketType);
  _is_valid : bool;
  _partial : bool
}.

Definition __init__ : t :=
  {| _body := None; _expected_byte_count := 64; _header := None;
     _is_valid := false; _partial := false |}.

Definition with_body (self : t) (b : KNXHIDReportBody.t H B) : t :=
  {| _body := Some b; _expected_byte_count := _expected_byte_count self;
     _header := _header self; _is_valid := _is_valid self;
     _partial := _partial self |}.
Definition with_header (self : t) (h : KNXHIDReportHeader.t SequenceNumber PacketType) : t :=
  {| _body := _body self; _expected_byte_count := _expected_byte_count self;
     _header := Some h; _is_valid := _is_valid self;
     _partial := _partial self |}.
Definition with_is_valid (self : t) (v : bool) : t :=
  {| _body := _body self; _expected_byte_count := _expected_byte_count self;
     _header := _header self; _is_valid := v;
     _partial := _partial self |}.
Definition with_partial (self : t) (p : bool) : t :=
  {| _body := _body self; _expected_byte_count := _expected_byte_count self;
     _header := _header self; _is_valid := _is_valid self;
     _partial := p |}.

Definition from_data (data : KNXHIDFrameData) : py t :=
  let obj := __init__ in
  b <- KNXHIDReportBody.from_data (data_hid_report_body_data data) ;;
  let obj := with_body obj b in
  let h := KNXHIDReportHeader.from_data
             {| KNXHIDReportHeader.data_packet_info := data_packet_info data;
                KNXHIDReportHeader.data_data_length := KNXHIDReportBody.length b |} in
  let obj := with_header obj h in
  let obj := with_partial obj (KNXHIDReportBody.data_partial (data_hid_report_body_data data)) in
  if KNXHIDReportBody.data_partial (data_hid_report_body_data data) then
    ret (with_is_valid obj (KNXHIDReportBody.is_valid b))
  else
    ret (with_is_valid obj (KNXHIDReportHeader.is_valid h && KNXHIDReportBody.is_valid b)).

Definition _init (self : t) (data : bytes) (partial : bool) : py t :=
  (if Z.of_nat (length data) <? _expected_byte_count self
   then logger_warning (FrameLength (length data))
   else ret tt) ;;;
  let self := with_partial self partial in
  h <- KNXHIDReportHeader.from_knx (slice_to 3 data) ;;
  let self := with_header self h in
  b <- KNXHIDReportBody.from_knx (slice_from 3 data) partial ;;
  let self := with_body self b in
  ret (with_is_valid self (KNXHIDReportHeader.is_valid h && KNXHIDReportBody.is_valid b)).

(** [partial] defaults to [False]: see [decode]. *)
Definition from_knx (data : bytes) (partial : bool) : py t :=
  _init __init__ data partial.

Definition decode (data : bytes) : py t := from_knx data false.

Definition to_knx (self : t) : py bytes :=
  match _header self with
  | Some h =>
      hs <- KNXHIDReportHeader.to_knx h ;;
      match _body self with
      | Some b =>
          bs <- KNXHIDReportBody.to_knx b ;;
          ret (hs ++ bs)
      | None => raise AttributeError
      end
  | None => raise AttributeError
  end.

Definition is_valid (self : t) : bool := _is_valid self.
Definition report_header (self : t) := _header self.
Definition report_body (self : t) := _body self.
End WithCollaborators.
Arguments KNXHIDFrameData : clear implicits.
Arguments t : clear implicits.
End KNXHIDFrame.

(** ** A concrete set of collaborators

    The enumerations and the transfer protocol classes are not among the
    sources, so the definitions of this module are not translations of code:
    they follow the specification and serve to run the embedding on concrete
    reports. *)

Module Knx.

(** Modelled from the spec: [knx_hid_datatypes.SequenceNumber] is missing.
    The sequence number is an enumeration of 1..5; 0 is reserved and the
    values above 5 are not used (the table in the docstring of [PacketInfo]
    says the same). *)
Inductive SequenceNumber : Type :=
| FIRST_PACKET | SECOND_PACKET | THIRD_PACKET | FOURTH_PACKET | FIFTH_PACKET.

#[global] Instance SequenceNumber_enum : PyEnum SequenceNumber := {|
  value := fun e =>
    match e with
    | FIRST_PACKET => 1 | SECOND_PACKET => 2 | THIRD_PACKET => 3
    | FOURTH_PACKET => 4 | FIFTH_PACKET => 5
    end;
  lookup := fun v =>
    match v with
    | 1 => Some FIRST_PACKET | 2 => Some SECOND_PACKET | 3 => Some THIRD_PACKET
    | 4 => Some FOURTH_PACKET | 5 => Some FIFTH_PACKET
    | _ => None
    end;
  truthy := fun _ => true
|}.

(** Modelled from the spec: [knx_hid_datatypes.PacketType] is missing.  The
    specification only says that it is a closed set of small integers that
    fills the low nibble; the members are the packet types of section
    3.4.1.2.3 of the KNX standard, which the docstring of
    [KNXHIDReportHeader.packet_info] cites. *)
Inductive PacketType : Type :=
| START_AND_END | PARTIAL | START_AND_PARTIAL | PARTIAL_AND_END.

#[global] Instance PacketType_enum : PyEnum PacketType := {|
  value := fun e =>
    match e with
    | START_AND_END => 3 | PARTIAL => 4 | START_AND_PARTIAL => 5
    | PARTIAL_AND_END => 6
    end;
  lookup := fun v =>
    match v with
    | 3 => Some START_AND_END | 4 => Some PARTIAL | 5 => Some START_AND_PARTIAL
    | 6 => Some PARTIAL_AND_END
    | _ => None
    end;
  truthy := fun _ => true
|}.

(** Modelled from the spec: [knx_hid_datatypes.ProtocolID] is missing; a
    closed set of small integers whose unmapped values are rejected. *)
Inductive ProtocolID : Type :=
| KNX_TUNNEL | M_BUS_TUNNEL | BATI_BUS_TUNNEL | BUS_ACCESS_SERVER_FEATURE_SERVICE.

#[global] Instance ProtocolID_enum : PyEnum ProtocolID := {|
  value := fun e =>
    match e with
    | KNX_TUNNEL => 1 | M_BUS_TUNNEL => 2 | BATI_BUS_TUNNEL => 3
    | BUS_ACCESS_SERVER_FEATURE_SERVICE => 15
    end;
  lookup := fun v =>
    match v with
    | 1 => Some KNX_TUNNEL | 2 => Some M_BUS_TUNNEL | 3 => Some BATI_BUS_TUNNEL
    | 15 => Some BUS_ACCESS_SERVER_FEATURE_SERVICE
    | _ => None
    end;
  truthy := fun _ => true
|}.

(** Modelled from the spec: [knx_hid_datatypes.EMIID] is missing; a closed
    set of small integers whose unmapped values are rejected. *)
Inductive EMIID : Type := EMI1 | EMI2 | COMMON_EMI.

#[global] Instance EMIID_enum : PyEnum EMIID := {|
  value := fun e => match e with EMI1 => 1 | EMI2 => 2 | COMMON_EMI => 3 end;
  lookup := fun v =>
    match v with
    | 1 => Some EMI1 | 2 => Some EMI2 | 3 => Some COMMON_EMI
    | _ => None
    end;
  truthy := fun _ => true
|}.

(** Modelled from the spec: [knx_hid_transfer.KNXUSBTransferProtocolHeader]
    is missing.  The transfer header is 8 bytes that identify the protocol
    and the EMI and declare the total payload length; it is valid when it
    could be parsed.  The fields are laid out in the order in which the
    docstring of [KNXHIDFrame.report_body] lists them: protocol version,
    header length, body length (two bytes), protocol id, EMI id,
    manufacturer code (two bytes). *)
Record TransferProtocolHeader : Type := {
  header_length : Z;
  total_length : Z;
  protocol_id : option ProtocolID;
  emi_id : option EMIID;
  manufacturer_code : Z;
  header_valid : bool
}.

(** Format [H], big-endian. *)
Definition pack_H (v : Z) : py bytes :=
  hi <- pack_B (Z.shiftr v 8) ;;
  lo <- pack_B (Z.land v 255) ;;
  ret [hi; lo].

Definition transfer_header_from_data (n : Z) (p : ProtocolID) (e : EMIID)
  : py TransferProtocolHeader :=
  ret {| header_length := 8; total_length := n; protocol_id := Some p;
         emi_id := Some e; manufacturer_code := 0; header_valid := true |}.

Definition transfer_header_from_knx (data : bytes) : py TransferProtocolHeader :=
  match data with
  | [_; hl; n1; n0; p; e; m1; m0] =>
      p' <- call_enum (int_of_byte p) ;;
      e' <- call_enum (int_of_byte e) ;;
      ret {| header_length := int_of_byte hl;
             total_length := 256 * int_of_byte n1 + int_of_byte n0;
             protocol_id := Some p'; emi_id := Some e';
             manufacturer_code := 256 * int_of_byte m1 + int_of_byte m0;
             header_valid := true |}
  | _ =>
      logger_error (Other 0) ;;;
      ret {| header_length := 8; total_length := 0; protocol_id := None;
             emi_id := None; manufacturer_code := 0; header_valid := false |}
  end.

Definition transfer_header_to_knx (h : TransferProtocolHeader) : py bytes :=
  if header_valid h then
    match protocol_id h, emi_id h with
    | Some p, Some e =>
        hl <- pack_B (header_length h) ;;
        n <- pack_H (total_length h) ;;
        p' <- pack_B (value p) ;;
        e' <- pack_B (value e) ;;
        m <- pack_H (manufacturer_code h) ;;
        ret ([x00; hl] ++ n ++ [p'; e'] ++ m)
    | _, _ => raise AttributeError
    end
  else ret [].

#[global] Instance transfer_header
  : TransferHeader ProtocolID EMIID TransferProtocolHeader := {|
  header_from_data := transfer_header_from_data;
  header_from_knx := transfer_header_from_knx;
  header_to_knx := transfer_header_to_knx;
  header_is_valid := header_valid;
  header_header_length := header_length;
  header_truthy := fun _ => true
|}.

(** Modelled from the spec: [knx_hid_transfer.KNXUSBTransferProtocolBody] is
    missing.  The payload is an opaque blob of up to 53 bytes in a start
    packet and up to 61 bytes in a continuation; its length is the number
    of payload bytes; the encoding fills the unused bytes of the report
    with zeros. *)
Record TransferProtocolBody : Type := {
  payload : bytes;
  body_valid : bool
}.

Definition max_payload (partial : bool) : nat := if partial then 61%nat else 53%nat.

Definition transfer_body_from_data (data : bytes) (partial : bool)
  : py TransferProtocolBody :=
  ret {| payload := data;
         body_valid := (length data <=? max_payload partial)%nat |}.

Definition transfer_body_from_knx (data : bytes) : py TransferProtocolBody :=
  ret {| payload := data; body_valid := (length data <=? 61)%nat |}.

Definition transfer_body_to_knx (b : TransferProtocolBody) (partial : bool) : py bytes :=
  if body_valid b then
    ret (payload b ++ repeat x00 (max_payload partial - length (payload b)))
  else ret [].

#[global] Instance transfer_body : TransferBody TransferProtocolBody := {|
  body_from_data := transfer_body_from_data;
  body_from_knx := transfer_body_from_knx;
  body_to_knx := transfer_body_to_knx;
  body_is_valid := body_valid;
  body_length := fun b => Z.of_nat (length (payload b));
  body_truthy := fun _ => true
|}.

Definition PacketInfo : Type := PacketInfo.t SequenceNumber PacketType.
Definition ReportHeader : Type := KNXHIDReportHeader.t SequenceNumber PacketType.
Definition ReportBody : Type :=
  KNXHIDReportBody.t TransferProtocolHeader TransferProtocolBody.
Definition Frame : Type :=
  KNXHIDFrame.t SequenceNumber PacketType TransferProtocolHeader TransferProtocolBody.

(** The single-packet telegram of the specification's scenario: sequence
    number 1, a start-and-end packet, ten payload bytes [0xAA]. *)
Definition single_packet : KNXHIDFrame.KNXHIDFrameData SequenceNumber PacketType ProtocolID EMIID :=
  {| KNXHIDFrame.data_packet_info :=
       PacketInfo.from_data
         {| PacketInfo.data_sequence_number := FIRST_PACKET;
            PacketInfo.data_packet_type := START_AND_END |};
     KNXHIDFrame.data_hid_report_body_data :=
       {| KNXHIDReportBody.data_protocol_id := KNX_TUNNEL;
          KNXHIDReportBody.data_emi_id := COMMON_EMI;
          KNXHIDReportBody.data_emi_data := repeat xaa 10;
          KNXHIDReportBody.data_partial := false |} |}.

(** The same telegram with a packet info whose fields were never set. *)
Definition unset_packet_info : KNXHIDFrame.KNXHIDFrameData SequenceNumber PacketType ProtocolID EMIID :=
  {| KNXHIDFrame.data_packet_info := PacketInfo.__init__;
     KNXHIDFrame.data_hid_report_body_data :=
       KNXHIDFrame.data_hid_report_body_data single_packet |}.

(** A continuation packet: sequence number 2, ten payload bytes. *)
Definition continuation_packet : KNXHIDFrame.KNXHIDFrameData SequenceNumber PacketType ProtocolID EMIID :=
  {| KNXHIDFrame.data_packet_info :=
       PacketInfo.from_data
         {| PacketInfo.data_sequence_number := SECOND_PACKET;
            PacketInfo.data_packet_type := PARTIAL |};
     KNXHIDFrame.data_hid_report_body_data :=
       {| KNXHIDReportBody.data_protocol_id := KNX_TUNNEL;
          KNXHIDReportBody.data_emi_id := COMMON_EMI;
          KNXHIDReportBody.data_emi_data := repeat xaa 10;
          KNXHIDReportBody.data_partial := true |} |}.

(** The 64 bytes of [single_packet]: report id 1, packet info [0x13], data
    length 18, the transfer header, the payload and the zero fill. *)
Definition single_packet_bytes : bytes :=
  [x01; x13; x12; x00; x08; x00; x0a; x01; x03; x00; x00]
    ++ repeat xaa 10 ++ repeat x00 43.

(** A report cut short by one byte. *)
Definition truncated_bytes : bytes := firstn 63 single_packet_bytes.

(** The 61 body bytes of [single_packet_bytes]. *)
Definition single_packet_body_bytes : bytes := skipn 3 single_packet_bytes.

(** The packet info of [single_packet]. *)
Definition first_start_and_end : PacketInfo :=
  PacketInfo.from_data
    {| PacketInfo.data_sequence_number := FIRST_PACKET;
       PacketInfo.data_packet_type := START_AND_END |}.

End Knx.


(** ** Predicates used in the statements *)

(** The computation ended without an exception. *)
Definition returned {A} (m : py A) : bool :=
  match outcome m with
  | Ok _ => true
  | Raise _ => false
  end.

(** Both nibbles of byte [b] map to a variant of their enumeration. *)
Definition nibbles_map {SequenceNumber PacketType : Type}
  {SN : PyEnum SequenceNumber} {PT : PyEnum PacketType} (b : byte) : bool :=
  match lookup (E := SequenceNumber) (Z.shiftr (int_of_byte b) 4),
        lookup (E := PacketType) (Z.land (int_of_byte b) 15) with
  | Some _, Some _ => true
  | _, _ => false
  end.

(** The transfer protocol decoders that [KNXHIDReportBody.from_knx] calls on
    [data] return: none for a buffer that is not 61 bytes long, the payload
    decoder for a continuation, both decoders for a start packet. *)
Definition transfer_decoders_return {ProtocolID EMIID H B : Type}
  {TH : TransferHeader ProtocolID EMIID H} {TB : TransferBody B}
  (data : bytes) (partial : bool) : bool :=
  if negb (length data =? 61)%nat then true
  else if partial then returned (body_from_knx data)
  else returned (header_from_knx (slice_to 8 data)) &&
       returned (body_from_knx (slice_from 8 data)).

(** The packet info fields [sn] and [pt] survive [to_knx] followed by
    [from_knx]: both are truthy, their values fit a nibble and the
    enumerations map the values back to them. *)
Definition packet_info_round_trips {SequenceNumber PacketType : Type}
  {SN : PyEnum SequenceNumber} {PT : PyEnum PacketType}
  (sn : SequenceNumber) (pt : PacketType) : Prop :=
  truthy sn = true /\ truthy pt = true /\
  0 <= value sn < 16 /\ 0 <= value pt < 16 /\
  lookup (value sn) = Some sn /\ lookup (value pt) = Some pt.

(** The transfer header [h] and the payload [b] of a start packet survive
    the transfer protocol layer: their encodings fill the 8 and the 53
    bytes of a report body, and the transfer decoders read them back as
    objects that encode to the same bytes. *)
Definition transfer_round_trips {ProtocolID EMIID H B : Type}
  {TH : TransferHeader ProtocolID EMIID H} {TB : TransferBody B}
  (h : H) (b : B) : Prop :=
  header_truthy h = true /\ body_truthy b = true /\
  exists (eh eb : bytes) (h' : H) (b' : B),
    outcome (header_to_knx h) = Ok eh /\ length eh = 8%nat /\
    outcome (body_to_knx b false) = Ok eb /\ length eb = 53%nat /\
    outcome (header_from_knx eh) = Ok h' /\
    outcome (body_from_knx eb) = Ok b' /\
    header_truthy h' = true /\ body_truthy b' = true /\
    outcome (header_to_knx h') = Ok eh /\
    outcome (body_to_knx b' false) = Ok eb.

(** Byte [b] survives [from_knx] followed by [to_knx]: both nibbles map to
    truthy variants whose values are the nibbles. *)
Definition packet_byte_round_trips {SequenceNumber PacketType : Type}
  {SN : PyEnum SequenceNumber} {PT : PyEnum PacketType} (b : byte) : Prop :=
  exists (sn : SequenceNumber) (pt : PacketType),
    lookup (Z.shiftr (int_of_byte b) 4) = Some sn /\
    lookup (Z.land (int_of_byte b) 15) = Some pt /\
    value sn = Z.shiftr (int_of_byte b) 4 /\
    value pt = Z.land (int_of_byte b) 15 /\
    truthy sn = true /\ truthy pt = true.

(** The 61 bytes [data] of a start packet survive the transfer protocol
    layer: the transfer decoders read the first 8 and the last 53 bytes as
    truthy objects that encode back to those bytes. *)
Definition transfer_decodes_back {ProtocolID EMIID H B : Type}
  {TH : TransferHeader ProtocolID EMIID H} {TB : TransferBody B}
  (data : bytes) : Prop :=
  exists (h : H) (b : B),
    outcome (header_from_knx (slice_to 8 data)) = Ok h /\
    outcome (body_from_knx (slice_from 8 data)) = Ok b /\
    header_truthy h = true /\ body_truthy b = true /\
    outcome (header_to_knx h) = Ok (slice_to 8 data) /\
    outcome (body_to_knx b false) = Ok (slice_from 8 data).

(** * Properties *)

(** ** The monad and the byte helpers *)

Lemma outcome_bind {A B} (m : py A) (k : A -> py B) :
  outcome (bind m k) =
  match outcome m with
  | Ok a => outcome (k a)
  | Raise e => Raise e
  end.
Proof.
  destruct m as [l [a | e]]; simpl; [ | reflexivity ].
  destruct (k a); reflexivity.
Qed.

Lemma bind_ret {A B} (a : A) (k : A -> py B) : bind (ret a) k = k a.
Proof. unfold bind, ret. destruct (k a); reflexivity. Qed.

Lemma bind_Ok {A B} (l : list log_record) (a : A) (k : A -> py B) :
  bind (l, Ok a) k = (l ++ logged (k a), outcome (k a)).
Proof. unfold bind. destruct (k a); reflexivity. Qed.

Lemma bind_Raise {A B} (l : list log_record) (e : exn) (k : A -> py B) :
  bind (l, Raise e) k = (l, Raise e).
Proof. reflexivity. Qed.

Lemma py_eta {A} (m : py A) : m = (logged m, outcome m).
Proof. destruct m; reflexivity. Qed.

Lemma int_of_byte_range (b : byte) : 0 <= int_of_byte b <= 255.
Proof.
  unfold int_of_byte. pose proof (Byte.to_N_bounded b). lia.
Qed.

Lemma pack_B_int_of_byte (b : byte) : pack_B (int_of_byte b) = ret b.
Proof.
  unfold pack_B. pose proof (int_of_byte_range b) as Hr.
  replace ((0 <=? int_of_byte b) && (int_of_byte b <=? 255)) with true
    by (symmetry; apply andb_true_iff; split; apply Z.leb_le; lia).
  unfold int_of_byte. rewrite N2Z.id, Byte.of_to_N. reflexivity.
Qed.

Lemma pack_B_in_range (v : Z) :
  0 <= v <= 255 -> exists b, pack_B v = ret b /\ int_of_byte b = v.
Proof.
  intros Hv. unfold pack_B.
  replace ((0 <=? v) && (v <=? 255)) with true
    by (symmetry; apply andb_true_iff; split; apply Z.leb_le; lia).
  destruct (Byte.of_N (Z.to_N v)) as [b | ] eqn:Hb.
  - exists b. split; [ reflexivity | ].
    apply Byte.to_of_N in Hb. unfold int_of_byte. rewrite Hb. lia.
  - apply Byte.of_N_None_iff in Hb. lia.
Qed.

Lemma pack_B_Ok (v : Z) (b : byte) :
  outcome (pack_B v) = Ok b -> pack_B v = ret b /\ int_of_byte b = v.
Proof.
  unfold pack_B.
  destruct ((0 <=? v) && (v <=? 255)) eqn:Hr; [ | discriminate ].
  destruct (Byte.of_N (Z.to_N v)) as [b' | ] eqn:Hb; [ | discriminate ].
  simpl. intros [= ->]. split; [ reflexivity | ].
  apply andb_true_iff in Hr. destruct Hr as [H0 _]. apply Z.leb_le in H0.
  apply Byte.to_of_N in Hb. unfold int_of_byte. rewrite Hb. lia.
Qed.

(** The two nibbles of [(s << 4) | p]. *)
Lemma nibbles_lor (s p : Z) :
  0 <= s < 16 -> 0 <= p < 16 ->
  Z.shiftr (Z.lor (Z.shiftl s 4) p) 4 = s /\
  Z.land (Z.lor (Z.shiftl s 4) p) 15 = p /\
  0 <= Z.lor (Z.shiftl s 4) p <= 255.
Proof.
  intros Hs Hp.
  assert (Hhi : Z.shiftr (Z.lor (Z.shiftl s 4) p) 4 = s).
  { rewrite Z.shiftr_lor, Z.shiftr_shiftl_l by lia.
    rewrite Z.sub_diag, Z.shiftl_0_r.
    rewrite (Z.shiftr_div_pow2 p) by lia.
    rewrite (Z.div_small p) by (change (2 ^ 4) with 16; lia).
    apply Z.lor_0_r. }
  assert (Hlo : Z.land (Z.lor (Z.shiftl s 4) p) 15 = p).
  { change 15 with (Z.ones 4).
    rewrite Z.land_lor_distr_l, !Z.land_ones by lia.
    rewrite Z.shiftl_mul_pow2, Z.mod_mul by (change (2 ^ 4) with 16; lia).
    rewrite Z.lor_0_l. apply Z.mod_small. change (2 ^ 4) with 16. lia. }
  repeat split; try assumption.
  - apply Z.lor_nonneg. split; [ apply Z.shiftl_nonneg | ]; lia.
  - pose proof (Z.div_mod (Z.lor (Z.shiftl s 4) p) 16 ltac:(lia)) as Hd.
    rewrite Z.shiftr_div_pow2 in Hhi by lia. change (2 ^ 4) with 16 in Hhi.
    change 15 with (Z.ones 4) in Hlo. rewrite Z.land_ones in Hlo by lia.
    change (2 ^ 4) with 16 in Hlo. lia.
Qed.

(** ** PacketInfo and the report header *)

Section EnumProperties.
Context {SequenceNumber PacketType : Type}.
Context {SN : PyEnum SequenceNumber} {PT : PyEnum PacketType}.

(** The encoding of a packet info whose two fields are set. *)
Lemma packet_info_to_knx_set (sn : SequenceNumber) (pt : PacketType) :
  truthy sn = true -> truthy pt = true ->
  0 <= value sn < 16 -> 0 <= value pt < 16 ->
  exists b,
    PacketInfo.to_knx {| PacketInfo._sequence_number := Some sn;
                         PacketInfo._packet_type := Some pt |} = ret [b] /\
    Z.shiftr (int_of_byte b) 4 = value sn /\
    Z.land (int_of_byte b) 15 = value pt.
Proof.
  intros Hsn Hpt Hs Hp. unfold PacketInfo.to_knx.
  cbn [PacketInfo._sequence_number PacketInfo._packet_type is_set].
  rewrite Hsn, Hpt. cbn [andb].
  destruct (nibbles_lor _ _ Hs Hp) as (Hhi & Hlo & Hrange).
  destruct (pack_B_in_range _ Hrange) as (b & Hb & Hv).
  exists b. rewrite Hb, bind_ret, Hv. auto.
Qed.

(** C9: a packet info whose two fields are set encodes to exactly one byte,
    the sequence number value in the high nibble and the packet type value
    in the low nibble; with a field that is not set it encodes to the empty
    byte string.  The enumerations are parameters: their members are taken
    to be truthy and to have values that fit a nibble. *)
Theorem packet_info_to_knx_one_byte (p : PacketInfo.t SequenceNumber PacketType) :
  (forall sn pt,
      PacketInfo.sequence_number p = Some sn ->
      PacketInfo.packet_type p = Some pt ->
      truthy sn = true -> truthy pt = true ->
      0 <= value sn < 16 -> 0 <= value pt < 16 ->
      exists b, PacketInfo.to_knx p = ret [b] /\
                Z.shiftr (int_of_byte b) 4 = value sn /\
                Z.land (int_of_byte b) 15 = value pt) /\
  (PacketInfo.sequence_number p = None \/ PacketInfo.packet_type p = None ->
   PacketInfo.to_knx p = ret []).
Proof.
  destruct p as [osn opt]. unfold PacketInfo.sequence_number, PacketInfo.packet_type.
  simpl. split.
  - intros sn pt -> ->. apply packet_info_to_knx_set.
  - unfold PacketInfo.to_knx. simpl.
    intros [-> | ->]; simpl; [ reflexivity | ].
    rewrite andb_false_r. reflexivity.
Qed.

(** C8: a header built from construction data is valid exactly when the
    body length is at most 61; 61 is accepted and 62 is refused. *)
Theorem report_header_from_data_valid
  (p : PacketInfo.t SequenceNumber PacketType) (n : Z) :
  KNXHIDReportHeader.is_valid
    (KNXHIDReportHeader.from_data
       {| KNXHIDReportHeader.data_packet_info := p;
          KNXHIDReportHeader.data_data_length := n |}) = (n <=? 61) /\
  KNXHIDReportHeader.is_valid
    (KNXHIDReportHeader.from_data
       {| KNXHIDReportHeader.data_packet_info := p;
          KNXHIDReportHeader.data_data_length := 61 |}) = true /\
  KNXHIDReportHeader.is_valid
    (KNXHIDReportHeader.from_data
       {| KNXHIDReportHeader.data_packet_info := p;
          KNXHIDReportHeader.data_data_length := 62 |}) = false.
Proof.
  unfold KNXHIDReportHeader.from_data, KNXHIDReportHeader.is_valid. simpl.
  repeat split. destruct (n <=? 61); reflexivity.
Qed.

End EnumProperties.

(** C9 at sequence number 1 and a start-and-end packet: the byte is [0x13]. *)
Lemma packet_info_to_knx_one_byte_witness :
  exists b,
    PacketInfo.to_knx
      (PacketInfo.from_data
         {| PacketInfo.data_sequence_number := Knx.FIRST_PACKET;
            PacketInfo.data_packet_type := Knx.START_AND_END |}) = ret [b] /\
    Z.shiftr (int_of_byte b) 4 = 1 /\ Z.land (int_of_byte b) 15 = 3.
Proof.
  refine (proj1 (packet_info_to_knx_one_byte _)
            Knx.FIRST_PACKET Knx.START_AND_END _ _ _ _ _ _);
    try reflexivity; simpl; lia.
Defined.

(** ** The report body *)

Section BodyProperties.
Context {ProtocolID EMIID H B : Type}.
Context {TH : TransferHeader ProtocolID EMIID H} {TB : TransferBody B}.

(** A buffer of the wrong size is logged and the fresh object is returned
    as it is. *)
Lemma report_body_from_knx_wrong_length (data : bytes) (partial : bool) :
  length data <> 61%nat ->
  KNXHIDReportBody.from_knx (H := H) (B := B) data partial =
  ([LogRecord ERROR (ReportBodyLength (length data))], Ok KNXHIDReportBody.__init__).
Proof.
  intros Hlen. unfold KNXHIDReportBody.from_knx, KNXHIDReportBody._init.
  cbn [KNXHIDReportBody._max_size KNXHIDReportBody.__init__].
  destruct (Z.eqb_spec (Z.of_nat (length data)) 61) as [Heq | Hne]; [ lia | ].
  reflexivity.
Qed.

(** What decoding 61 bytes does, for each value of the flag. *)
Lemma report_body_from_knx_61 (data : bytes) (partial : bool) :
  length data = 61%nat ->
  KNXHIDReportBody.from_knx (H := H) (B := B) data partial =
  if partial then
    b <- body_from_knx data ;;
    ret {| KNXHIDReportBody._max_size := 61;
           KNXHIDReportBody._header := None;
           KNXHIDReportBody._body := Some b;
           KNXHIDReportBody._is_valid := body_is_valid b;
           KNXHIDReportBody._partial := true |}
  else
    h <- header_from_knx (slice_to 8 data) ;;
    b <- body_from_knx (slice_from 8 data) ;;
    ret {| KNXHIDReportBody._max_size := 61;
           KNXHIDReportBody._header := Some h;
           KNXHIDReportBody._body := Some b;
           KNXHIDReportBody._is_valid := header_is_valid h && body_is_valid b;
           KNXHIDReportBody._partial := false |}.
Proof.
  intros Hlen. unfold KNXHIDReportBody.from_knx, KNXHIDReportBody._init.
  cbn [KNXHIDReportBody._max_size KNXHIDReportBody.__init__].
  rewrite Hlen. change (Z.of_nat 61 =? 61) with true. cbn [negb].
  destruct partial; reflexivity.
Qed.

(** C4: a buffer whose length is not 61 makes [from_knx] log one error and
    return a report body all the same; that body is not valid. *)
Theorem report_body_from_knx_wrong_length_invalid (data : bytes) (partial : bool) :
  length data <> 61%nat ->
  exists body : KNXHIDReportBody.t H B,
    KNXHIDReportBody.from_knx data partial =
      ([LogRecord ERROR (ReportBodyLength (length data))], Ok body) /\
    KNXHIDReportBody.is_valid body = false.
Proof.
  intros Hlen. exists KNXHIDReportBody.__init__.
  split; [ apply report_body_from_knx_wrong_length; assumption | reflexivity ].
Qed.

(** C10: the report body returned for a buffer whose length is not 61 holds
    no parsed data: no transfer header, no transfer body, length 0 and an
    empty encoding. *)
Theorem report_body_from_knx_wrong_length_empty (data : bytes) (partial : bool) :
  length data <> 61%nat ->
  exists (log : list log_record) (body : KNXHIDReportBody.t H B),
    KNXHIDReportBody.from_knx data partial = (log, Ok body) /\
    KNXHIDReportBody.transfer_protocol_header body = None /\
    KNXHIDReportBody.transfer_protocol_body body = None /\
    KNXHIDReportBody.length body = 0 /\
    KNXHIDReportBody.to_knx body = ret [].
Proof.
  intros Hlen. eexists. exists KNXHIDReportBody.__init__.
  split; [ apply report_body_from_knx_wrong_length; assumption | ].
  repeat split.
Qed.

(** C5: decoding 61 bytes as a continuation hands all of them to the payload
    decoder and to nothing else.  The result, log included, is that of the
    payload decoder; the transfer header stays absent and the validity is
    the payload's. *)
Theorem report_body_from_knx_partial (data : bytes) :
  length data = 61%nat ->
  KNXHIDReportBody.from_knx (H := H) data true =
    (b <- body_from_knx data ;;
     ret {| KNXHIDReportBody._max_size := 61;
            KNXHIDReportBody._header := None;
            KNXHIDReportBody._body := Some b;
            KNXHIDReportBody._is_valid := body_is_valid b;
            KNXHIDReportBody._partial := true |}) /\
  (forall (log : list log_record) (body : KNXHIDReportBody.t H B),
      KNXHIDReportBody.from_knx data true = (log, Ok body) ->
      KNXHIDReportBody.transfer_protocol_header body = None /\
      exists b, body_from_knx data = (log, Ok b) /\
                KNXHIDReportBody.transfer_protocol_body body = Some b /\
                KNXHIDReportBody.is_valid body = body_is_valid b).
Proof.
  intros Hlen. rewrite (report_body_from_knx_61 data true Hlen).
  split; [ reflexivity | ].
  intros log body. destruct (body_from_knx data) as [l [b | e]] eqn:Hb.
  - rewrite bind_Ok. cbn [ret logged outcome fst snd]. rewrite app_nil_r.
    intros [= <- <-]. split; [ reflexivity | ].
    exists b. repeat split.
  - rewrite bind_Raise. discriminate.
Qed.

End BodyProperties.

(** The continuation decoder never consults the transfer header decoder:
    two sets of header operations give the same report body. *)
Lemma report_body_from_knx_partial_header_blind
  {ProtocolID EMIID H B : Type} (TH1 TH2 : TransferHeader ProtocolID EMIID H)
  {TB : TransferBody B} (data : bytes) :
  KNXHIDReportBody.from_knx (TH := TH1) data true =
  KNXHIDReportBody.from_knx (TH := TH2) data true.
Proof.
  unfold KNXHIDReportBody.from_knx, KNXHIDReportBody._init.
  destruct (negb _); reflexivity.
Qed.

(** C4 at the empty buffer. *)
Lemma report_body_from_knx_wrong_length_invalid_witness :
  exists body : Knx.ReportBody,
    KNXHIDReportBody.from_knx [] false =
      ([LogRecord ERROR (ReportBodyLength 0)], Ok body) /\
    KNXHIDReportBody.is_valid body = false.
Proof.
  apply (report_body_from_knx_wrong_length_invalid (H := Knx.TransferProtocolHeader)
           (B := Knx.TransferProtocolBody) [] false).
  simpl. lia.
Defined.

(** C10 at a buffer of 60 bytes decoded as a continuation. *)
Lemma report_body_from_knx_wrong_length_empty_witness :
  exists (log : list log_record) (body : Knx.ReportBody),
    KNXHIDReportBody.from_knx (repeat x00 60) true = (log, Ok body) /\
    KNXHIDReportBody.transfer_protocol_header body = None /\
    KNXHIDReportBody.transfer_protocol_body body = None /\
    KNXHIDReportBody.length body = 0 /\
    KNXHIDReportBody.to_knx body = ret [].
Proof.
  apply (report_body_from_knx_wrong_length_empty (H := Knx.TransferProtocolHeader)
           (B := Knx.TransferProtocolBody) (repeat x00 60) true).
  simpl. lia.
Defined.

(** C5 at 61 bytes whose first eight form a well-formed transfer header. *)
Lemma report_body_from_knx_partial_witness :
  exists body : Knx.ReportBody,
    KNXHIDReportBody.from_knx
      ([x00; x08; x00; x0a; x01; x03; x00; x00] ++ repeat xaa 53) true = ret body /\
    KNXHIDReportBody.transfer_protocol_header body = None /\
    KNXHIDReportBody.is_valid body = true.
Proof.
  destruct (report_body_from_knx_partial (H := Knx.TransferProtocolHeader)
              (TH := Knx.transfer_header) (TB := Knx.transfer_body)
              ([x00; x08; x00; x0a; x01; x03; x00; x00] ++ repeat xaa 53)
              eq_refl) as [Heq _].
  eexists. split; [ rewrite Heq; reflexivity | split; reflexivity ].
Defined.

(** ** Decoding the packet info and the report header *)

Section DecodeProperties.
Context {SequenceNumber PacketType : Type}.
Context {SN : PyEnum SequenceNumber} {PT : PyEnum PacketType}.

Lemma packet_info_from_knx_wrong_length (data : bytes) :
  length data <> 1%nat ->
  PacketInfo.from_knx (SN := SN) (PT := PT) data =
  ([LogRecord ERROR (PacketInfoLength (length data))], Ok PacketInfo.__init__).
Proof.
  intros Hlen. unfold PacketInfo.from_knx, PacketInfo._init.
  destruct (Nat.eqb_spec (length data) 1) as [Heq | Hne]; [ contradiction | ].
  reflexivity.
Qed.

Lemma packet_info_from_knx_mapped (b : byte) (sn : SequenceNumber) (pt : PacketType) :
  lookup (Z.shiftr (int_of_byte b) 4) = Some sn ->
  lookup (Z.land (int_of_byte b) 15) = Some pt ->
  PacketInfo.from_knx [b] =
  ret {| PacketInfo._sequence_number := Some sn; PacketInfo._packet_type := Some pt |}.
Proof.
  intros Hsn Hpt. unfold PacketInfo.from_knx, PacketInfo._init, getitem, call_enum.
  cbn [length Nat.eqb negb nth_error].
  rewrite bind_ret, Hsn. cbv beta iota.
  rewrite !bind_ret, Hpt. cbv beta iota. rewrite bind_ret.
  reflexivity.
Qed.

Lemma packet_info_from_knx_unmapped (b : byte) :
  nibbles_map (SN := SN) (PT := PT) b = false ->
  PacketInfo.from_knx (SN := SN) (PT := PT) [b] = raise ValueError.
Proof.
  unfold nibbles_map, PacketInfo.from_knx, PacketInfo._init, getitem, call_enum.
  cbn [length Nat.eqb negb nth_error]. rewrite bind_ret.
  destruct (lookup (Z.shiftr (int_of_byte b) 4)) as [sn | ]; [ | reflexivity ].
  cbv beta iota. rewrite !bind_ret.
  destruct (lookup (Z.land (int_of_byte b) 15)) as [pt | ]; [ discriminate | reflexivity ].
Qed.

Lemma nibbles_map_true (b : byte) :
  nibbles_map (SN := SN) (PT := PT) b = true ->
  exists (sn : SequenceNumber) (pt : PacketType),
    lookup (Z.shiftr (int_of_byte b) 4) = Some sn /\
    lookup (Z.land (int_of_byte b) 15) = Some pt.
Proof.
  unfold nibbles_map.
  destruct (lookup (Z.shiftr (int_of_byte b) 4)) as [sn | ]; [ | discriminate ].
  destruct (lookup (Z.land (int_of_byte b) 15)) as [pt | ]; [ | discriminate ].
  intros _. exists sn, pt. split; reflexivity.
Qed.

(** A header buffer of at most 61 bytes with a third byte and a packet info
    byte that maps. *)
Lemma report_header_from_knx_mapped
  (b0 b1 b2 : byte) (rest : bytes) (sn : SequenceNumber) (pt : PacketType) :
  (length rest <= 58)%nat ->
  lookup (Z.shiftr (int_of_byte b1) 4) = Some sn ->
  lookup (Z.land (int_of_byte b1) 15) = Some pt ->
  KNXHIDReportHeader.from_knx (b0 :: b1 :: b2 :: rest) =
  ret {| KNXHIDReportHeader._report_id := int_of_byte b0;
         KNXHIDReportHeader._packet_info :=
           Some {| PacketInfo._sequence_number := Some sn;
                   PacketInfo._packet_type := Some pt |};
         KNXHIDReportHeader._data_length := int_of_byte b2;
         KNXHIDReportHeader._max_expected_data_length := 61;
         KNXHIDReportHeader._valid := (int_of_byte b0 =? 1) |}.
Proof.
  intros Hlen Hsn Hpt.
  unfold KNXHIDReportHeader.from_knx, KNXHIDReportHeader._init.
  cbn [KNXHIDReportHeader._max_expected_data_length KNXHIDReportHeader.__init__].
  destruct (Z.gtb_spec (Z.of_nat (length (b0 :: b1 :: b2 :: rest))) 61) as [Hgt | _];
    [ cbn [length] in Hgt; lia | ].
  unfold getitem. cbn [nth_error]. rewrite bind_ret.
  change (slice 1 2 (b0 :: b1 :: b2 :: rest)) with [b1].
  rewrite (packet_info_from_knx_mapped b1 sn pt Hsn Hpt), !bind_ret.
  unfold KNXHIDReportHeader.with_data_length, KNXHIDReportHeader.with_packet_info,
    KNXHIDReportHeader.with_report_id, KNXHIDReportHeader.with_valid.
  cbn [KNXHIDReportHeader._report_id KNXHIDReportHeader._packet_info
       KNXHIDReportHeader._data_length KNXHIDReportHeader._max_expected_data_length
       KNXHIDReportHeader._valid].
  destruct (int_of_byte b0 =? 1); reflexivity.
Qed.

Lemma report_header_from_knx_too_long (data : bytes) :
  (61 < length data)%nat ->
  KNXHIDReportHeader.from_knx (SN := SN) (PT := PT) data =
  ([LogRecord ERROR (ReportHeaderLength (length data))], Ok KNXHIDReportHeader.__init__).
Proof.
  intros Hlen. unfold KNXHIDReportHeader.from_knx, KNXHIDReportHeader._init.
  cbn [KNXHIDReportHeader._max_expected_data_length KNXHIDReportHeader.__init__].
  destruct (Z.gtb_spec (Z.of_nat (length data)) 61) as [_ | Hle]; [ reflexivity | lia ].
Qed.

(** A header is valid only with report id 1, whatever was decoded. *)
Lemma report_header_from_knx_valid_report_id
  (data : bytes) (log : list log_record)
  (h : KNXHIDReportHeader.t SequenceNumber PacketType) :
  KNXHIDReportHeader.from_knx data = (log, Ok h) ->
  KNXHIDReportHeader.is_valid h = true ->
  KNXHIDReportHeader.report_id h = 1.
Proof.
  unfold KNXHIDReportHeader.from_knx, KNXHIDReportHeader._init.
  cbn [KNXHIDReportHeader._max_expected_data_length KNXHIDReportHeader.__init__].
  destruct (Z.of_nat (length data) >? 61).
  - intros [= <- <-]. discriminate.
  - unfold getitem. destruct data as [ | b0 data]; [ discriminate | ].
    change (nth_error (b0 :: data) 0) with (Some b0). cbv beta iota.
    rewrite bind_ret.
    destruct (PacketInfo.from_knx (slice 1 2 (b0 :: data))) as [l [p | e]];
      [ | discriminate ].
    rewrite bind_Ok.
    destruct (nth_error (b0 :: data) 2) as [b2 | ]; [ | cbn; discriminate ].
    cbv beta iota. rewrite bind_ret.
    unfold KNXHIDReportHeader.with_data_length, KNXHIDReportHeader.with_packet_info,
      KNXHIDReportHeader.with_report_id, KNXHIDReportHeader.with_valid.
    cbn [KNXHIDReportHeader._report_id KNXHIDReportHeader._packet_info
         KNXHIDReportHeader._data_length KNXHIDReportHeader._max_expected_data_length
         KNXHIDReportHeader._valid].
    destruct (Z.eqb_spec (int_of_byte b0) 1) as [Heq | Hne];
      cbn [ret logged outcome fst snd].
    all: intros Hh; injection Hh as _ <-;
      first [ intros _; exact Heq | discriminate ].
Qed.

End DecodeProperties.

(** ** Decoding a frame *)

Section FrameDecodeProperties.
Context {SequenceNumber PacketType : Type}.
Context {SN : PyEnum SequenceNumber} {PT : PyEnum PacketType}.
Context {ProtocolID EMIID H B : Type}.
Context {TH : TransferHeader ProtocolID EMIID H} {TB : TransferBody B}.

(** A frame buffer of at least three bytes whose packet info byte maps: the
    header is decoded from the first three bytes, the body from the rest. *)
Lemma frame_from_knx_mapped
  (b0 b1 b2 : byte) (rest : bytes) (partial : bool)
  (sn : SequenceNumber) (pt : PacketType)
  (lb : list log_record) (body : KNXHIDReportBody.t H B) :
  lookup (Z.shiftr (int_of_byte b1) 4) = Some sn ->
  lookup (Z.land (int_of_byte b1) 15) = Some pt ->
  KNXHIDReportBody.from_knx rest partial = (lb, Ok body) ->
  KNXHIDFrame.from_knx (b0 :: b1 :: b2 :: rest) partial =
  ((if Z.of_nat (length (b0 :: b1 :: b2 :: rest)) <? 64
    then [LogRecord WARNING (FrameLength (length (b0 :: b1 :: b2 :: rest)))]
    else []) ++ lb,
   Ok {| KNXHIDFrame._body := Some body;
         KNXHIDFrame._expected_byte_count := 64;
         KNXHIDFrame._header :=
           Some {| KNXHIDReportHeader._report_id := int_of_byte b0;
                   KNXHIDReportHeader._packet_info :=
                     Some {| PacketInfo._sequence_number := Some sn;
                             PacketInfo._packet_type := Some pt |};
                   KNXHIDReportHeader._data_length := int_of_byte b2;
                   KNXHIDReportHeader._max_expected_data_length := 61;
                   KNXHIDReportHeader._valid := (int_of_byte b0 =? 1) |};
         KNXHIDFrame._is_valid :=
           (int_of_byte b0 =? 1) && KNXHIDReportBody.is_valid body;
         KNXHIDFrame._partial := partial |}).
Proof.
  intros Hsn Hpt Hbody.
  unfold KNXHIDFrame.from_knx, KNXHIDFrame._init.
  cbn [KNXHIDFrame._expected_byte_count KNXHIDFrame.__init__].
  change (slice_to 3 (b0 :: b1 :: b2 :: rest)) with [b0; b1; b2].
  change (slice_from 3 (b0 :: b1 :: b2 :: rest)) with rest.
  rewrite (report_header_from_knx_mapped b0 b1 b2 [] sn pt) by (simpl; lia || assumption).
  rewrite bind_ret, Hbody, bind_Ok.
  cbn [ret logged outcome fst snd]. rewrite app_nil_r.
  destruct (Z.of_nat (length (b0 :: b1 :: b2 :: rest)) <? 64); reflexivity.
Qed.

(** C3, as the code has it: for a three-byte buffer whose first byte is not
    [0x01] and whose packet info byte maps to variants, [from_knx] yields a
    header that is not valid, whatever the third byte; and a header that
    [from_knx] returns valid has report id 1. *)
Theorem report_header_report_id_gate :
  (forall b0 b1 b2 : byte,
      nibbles_map (SN := SN) (PT := PT) b1 = true ->
      int_of_byte b0 <> 1 ->
      exists h : KNXHIDReportHeader.t SequenceNumber PacketType,
        KNXHIDReportHeader.from_knx [b0; b1; b2] = ret h /\
        KNXHIDReportHeader.is_valid h = false) /\
  (forall (data : bytes) (log : list log_record)
          (h : KNXHIDReportHeader.t SequenceNumber PacketType),
      KNXHIDReportHeader.from_knx data = (log, Ok h) ->
      KNXHIDReportHeader.is_valid h = true ->
      KNXHIDReportHeader.report_id h = 1).
Proof.
  split.
  - intros b0 b1 b2 Hmap Hid.
    destruct (nibbles_map_true b1 Hmap) as (sn & pt & Hsn & Hpt).
    eexists. split.
    + apply (report_header_from_knx_mapped b0 b1 b2 [] sn pt); [ simpl; lia | | ];
        assumption.
    + unfold KNXHIDReportHeader.is_valid. cbn [KNXHIDReportHeader._valid].
      apply Z.eqb_neq. assumption.
  - apply report_header_from_knx_valid_report_id.
Qed.

(** The report body decoder returns when the transfer decoders it calls do. *)
Lemma report_body_from_knx_returns (data : bytes) (partial : bool) :
  transfer_decoders_return (TH := TH) (TB := TB) data partial = true ->
  exists (log : list log_record) (body : KNXHIDReportBody.t H B),
    KNXHIDReportBody.from_knx data partial = (log, Ok body).
Proof.
  unfold transfer_decoders_return, returned.
  destruct (Nat.eqb_spec (length data) 61) as [Hlen | Hlen]; cbn [negb].
  - rewrite (report_body_from_knx_61 data partial Hlen).
    destruct partial.
    + destruct (body_from_knx data) as [l [b | e]]; cbn [outcome]; [ | discriminate ].
      intros _. rewrite bind_Ok. eexists. eexists. reflexivity.
    + destruct (header_from_knx (slice_to 8 data)) as [l [h | e]]; cbn [outcome andb];
        [ | discriminate ].
      destruct (body_from_knx (slice_from 8 data)) as [l' [b | e]]; cbn [outcome];
        [ | discriminate ].
      intros _. rewrite bind_Ok, bind_Ok. eexists. eexists. reflexivity.
  - intros _. rewrite (report_body_from_knx_wrong_length data partial Hlen).
    eexists. eexists. reflexivity.
Qed.

(** C2, as the code has it: the decoders return a value whenever every
    enumeration call they make finds a variant and the transfer decoders
    they call return; a header or frame buffer is taken to have its three
    header bytes.  A packet info byte with an unmapped nibble makes
    [PacketInfo.from_knx] raise [ValueError]. *)
Theorem decoders_return_when_mapped :
  (forall data : bytes,
      (forall b, data = [b] -> nibbles_map (SN := SN) (PT := PT) b = true) ->
      exists (log : list log_record) (p : PacketInfo.t SequenceNumber PacketType),
        PacketInfo.from_knx data = (log, Ok p)) /\
  (forall b : byte,
      nibbles_map (SN := SN) (PT := PT) b = false ->
      PacketInfo.from_knx (SN := SN) (PT := PT) [b] = raise ValueError) /\
  (forall (data : bytes) (b1 : byte),
      (3 <= length data)%nat ->
      nth_error data 1 = Some b1 ->
      ((length data <= 61)%nat -> nibbles_map (SN := SN) (PT := PT) b1 = true) ->
      exists (log : list log_record) (h : KNXHIDReportHeader.t SequenceNumber PacketType),
        KNXHIDReportHeader.from_knx data = (log, Ok h)) /\
  (forall (data : bytes) (partial : bool),
      transfer_decoders_return (TH := TH) (TB := TB) data partial = true ->
      exists (log : list log_record) (body : KNXHIDReportBody.t H B),
        KNXHIDReportBody.from_knx data partial = (log, Ok body)) /\
  (forall (data : bytes) (partial : bool) (b1 : byte),
      (3 <= length data)%nat ->
      nth_error data 1 = Some b1 ->
      nibbles_map (SN := SN) (PT := PT) b1 = true ->
      transfer_decoders_return (TH := TH) (TB := TB) (slice_from 3 data) partial = true ->
      exists (log : list log_record)
             (f : KNXHIDFrame.t SequenceNumber PacketType H B),
        KNXHIDFrame.from_knx data partial = (log, Ok f)).
Proof.
  repeat split.
  - intros data Hmap.
    destruct data as [ | b [ | b' data]].
    + eexists. eexists. apply packet_info_from_knx_wrong_length. simpl. lia.
    + destruct (nibbles_map_true b (Hmap b eq_refl)) as (sn & pt & Hsn & Hpt).
      eexists. eexists. apply (packet_info_from_knx_mapped b sn pt Hsn Hpt).
    + eexists. eexists. apply packet_info_from_knx_wrong_length. simpl. lia.
  - apply packet_info_from_knx_unmapped.
  - intros data b1 Hlen Hnth Hmap.
    destruct (Nat.le_gt_cases (length data) 61) as [Hle | Hgt].
    + destruct data as [ | b0 [ | b1' [ | b2 rest]]]; try (simpl in Hlen; lia).
      simpl in Hnth. injection Hnth as ->.
      destruct (nibbles_map_true b1 (Hmap Hle)) as (sn & pt & Hsn & Hpt).
      eexists. eexists.
      apply (report_header_from_knx_mapped b0 b1 b2 rest sn pt); [ simpl in Hle; lia | | ];
        assumption.
    + eexists. eexists. apply report_header_from_knx_too_long. lia.
  - apply report_body_from_knx_returns.
  - intros data partial b1 Hlen Hnth Hmap Hret.
    destruct data as [ | b0 [ | b1' [ | b2 rest]]]; try (simpl in Hlen; lia).
    simpl in Hnth. injection Hnth as ->.
    destruct (nibbles_map_true b1 Hmap) as (sn & pt & Hsn & Hpt).
    destruct (report_body_from_knx_returns _ _ Hret) as (lb & body & Hbody).
    eexists. eexists.
    apply (frame_from_knx_mapped b0 b1 b2 rest partial sn pt lb body Hsn Hpt Hbody).
Qed.

(** C6, as the code has it: a buffer of at least 3 and fewer than 64 bytes
    whose packet info byte maps to variants is decoded with one warning; the
    header comes from the first three bytes, the body from the rest with the
    same flag, and the frame is valid when both are.  The body is then
    shorter than 61 bytes, so it is refused and the frame is not valid. *)
Theorem frame_from_knx_short (data : bytes) (partial : bool) (b1 : byte) :
  (3 <= length data < 64)%nat ->
  nth_error data 1 = Some b1 ->
  nibbles_map (SN := SN) (PT := PT) b1 = true ->
  exists (h : KNXHIDReportHeader.t SequenceNumber PacketType)
         (lb : list log_record) (body : KNXHIDReportBody.t H B)
         (f : KNXHIDFrame.t SequenceNumber PacketType H B),
    KNXHIDReportHeader.from_knx (slice_to 3 data) = ret h /\
    KNXHIDReportBody.from_knx (slice_from 3 data) partial = (lb, Ok body) /\
    KNXHIDFrame.from_knx data partial =
      (LogRecord WARNING (FrameLength (length data)) :: lb, Ok f) /\
    KNXHIDFrame.report_header f = Some h /\
    KNXHIDFrame.report_body f = Some body /\
    KNXHIDFrame._partial f = partial /\
    KNXHIDFrame.is_valid f =
      KNXHIDReportHeader.is_valid h && KNXHIDReportBody.is_valid body /\
    KNXHIDFrame.is_valid f = false.
Proof.
  intros Hlen Hnth Hmap.
  destruct data as [ | b0 [ | b1' [ | b2 rest]]]; try (simpl in Hlen; lia).
  simpl in Hnth. injection Hnth as ->.
  destruct (nibbles_map_true b1 Hmap) as (sn & pt & Hsn & Hpt).
  assert (Hrest : length rest <> 61%nat) by (simpl in Hlen; lia).
  pose proof (report_body_from_knx_wrong_length (H := H) (B := B) rest partial Hrest)
    as Hbody.
  pose proof (frame_from_knx_mapped b0 b1 b2 rest partial sn pt _ _ Hsn Hpt Hbody)
    as Hframe.
  destruct (Z.ltb_spec (Z.of_nat (length (b0 :: b1 :: b2 :: rest))) 64) as [_ | Hge];
    [ | cbn [length] in Hge, Hlen; lia ].
  eexists. eexists. eexists. eexists.
  split; [ | split; [ exact Hbody | split; [ exact Hframe | ] ] ].
  - change (slice_to 3 (b0 :: b1 :: b2 :: rest)) with [b0; b1; b2].
    apply (report_header_from_knx_mapped b0 b1 b2 [] sn pt); [ simpl; lia | | ];
      assumption.
  - unfold KNXHIDFrame.report_header, KNXHIDFrame.report_body, KNXHIDFrame.is_valid,
      KNXHIDReportHeader.is_valid, KNXHIDReportBody.is_valid.
    cbn. rewrite andb_false_r. repeat split.
Qed.

End FrameDecodeProperties.

(** ** Building and encoding a frame *)

Section FrameEncodeProperties.
Context {SequenceNumber PacketType : Type}.
Context {SN : PyEnum SequenceNumber} {PT : PyEnum PacketType}.
Context {ProtocolID EMIID H B : Type}.
Context {TH : TransferHeader ProtocolID EMIID H} {TB : TransferBody B}.

(** The shape of a report body built from construction data.  The flag
    [_partial] of the object keeps its initial value in both branches. *)
Lemma report_body_from_data_inv
  (bd : KNXHIDReportBody.KNXHIDReportBodyData ProtocolID EMIID)
  (l : list log_record) (body : KNXHIDReportBody.t H B) :
  KNXHIDReportBody.from_data bd = (l, Ok body) ->
  exists b : B,
    KNXHIDReportBody._body body = Some b /\
    KNXHIDReportBody._partial body = false /\
    KNXHIDReportBody._max_size body = 61 /\
    if KNXHIDReportBody.data_partial bd then
      KNXHIDReportBody._header body = None /\
      KNXHIDReportBody._is_valid body = body_is_valid b
    else
      exists h : H,
        KNXHIDReportBody._header body = Some h /\
        KNXHIDReportBody._is_valid body = header_is_valid h && body_is_valid b.
Proof.
  unfold KNXHIDReportBody.from_data.
  destruct (body_from_data _ _) as [l0 [b | e]]; [ | discriminate ].
  rewrite bind_Ok. destruct (KNXHIDReportBody.data_partial bd).
  - cbn [ret logged outcome fst snd]. intros Heq. injection Heq as _ <-.
    exists b. repeat split.
  - destruct (header_from_data _ _ _) as [l1 [h | e]]; [ | discriminate ].
    rewrite bind_Ok. cbn [ret logged outcome fst snd]. intros Heq. injection Heq as _ <-.
    exists b. repeat split. exists h. repeat split.
Qed.

(** The shape of a frame built from construction data. *)
Lemma frame_from_data_inv
  (data : KNXHIDFrame.KNXHIDFrameData SequenceNumber PacketType ProtocolID EMIID)
  (l : list log_record) (f : KNXHIDFrame.t SequenceNumber PacketType H B) :
  KNXHIDFrame.from_data data = (l, Ok f) ->
  exists body : KNXHIDReportBody.t H B,
    KNXHIDReportBody.from_data (KNXHIDFrame.data_hid_report_body_data data) = (l, Ok body) /\
    KNXHIDFrame._body f = Some body /\
    KNXHIDFrame._header f =
      Some (KNXHIDReportHeader.from_data
              {| KNXHIDReportHeader.data_packet_info := KNXHIDFrame.data_packet_info data;
                 KNXHIDReportHeader.data_data_length := KNXHIDReportBody.length body |}) /\
    KNXHIDFrame._is_valid f =
      (if KNXHIDReportBody.data_partial (KNXHIDFrame.data_hid_report_body_data data)
       then KNXHIDReportBody.is_valid body
       else KNXHIDReportHeader.is_valid
              (KNXHIDReportHeader.from_data
                 {| KNXHIDReportHeader.data_packet_info := KNXHIDFrame.data_packet_info data;
                    KNXHIDReportHeader.data_data_length := KNXHIDReportBody.length body |})
            && KNXHIDReportBody.is_valid body).
Proof.
  unfold KNXHIDFrame.from_data.
  destruct (KNXHIDReportBody.from_data _) as [l0 [body | e]]; [ | discriminate ].
  rewrite bind_Ok.
  destruct (KNXHIDReportBody.data_partial (KNXHIDFrame.data_hid_report_body_data data));
    cbn [ret logged outcome fst snd]; rewrite app_nil_r; intros Heq; injection Heq as <- <-;
    exists body; repeat split.
Qed.

(** Without a transfer header the report body encodes to nothing, payload
    or not. *)
Lemma report_body_to_knx_no_header (body : KNXHIDReportBody.t H B) :
  KNXHIDReportBody._header body = None ->
  KNXHIDReportBody.to_knx body = ret [].
Proof.
  intros Hh. unfold KNXHIDReportBody.to_knx. rewrite Hh. reflexivity.
Qed.

(** The report header encodes to three bytes or to none. *)
Lemma report_header_to_knx_length
  (h : KNXHIDReportHeader.t SequenceNumber PacketType) (hs : bytes) :
  outcome (KNXHIDReportHeader.to_knx h) = Ok hs -> (length hs <= 3)%nat.
Proof.
  unfold KNXHIDReportHeader.to_knx.
  destruct (KNXHIDReportHeader._valid h).
  - destruct (KNXHIDReportHeader._packet_info h) as [p | ]; [ | discriminate ].
    rewrite outcome_bind. destruct (outcome (PacketInfo.to_knx p)) as [s | e];
      [ | discriminate ].
    rewrite outcome_bind. destruct (outcome (pack_B _)) as [b0 | e]; [ | discriminate ].
    rewrite outcome_bind. destruct (outcome (pack_B _)) as [b2 | e]; [ | discriminate ].
    cbn [ret outcome snd]. intros [= <-]. simpl. lia.
  - cbn [ret outcome snd]. intros [= <-]. simpl. lia.
Qed.

(** The length of a report body is 0, the payload's, or the transfer
    header's plus the payload's: its bounds are those of the transfer
    protocol layer. *)
Lemma report_body_length_cases (body : KNXHIDReportBody.t H B) :
  KNXHIDReportBody.length body = 0 \/
  (exists b, KNXHIDReportBody._body body = Some b /\
             KNXHIDReportBody._partial body = true /\
             KNXHIDReportBody.length body = body_length b) \/
  (exists h b, KNXHIDReportBody._header body = Some h /\
               KNXHIDReportBody._body body = Some b /\
               KNXHIDReportBody.length body = header_header_length h + body_length b).
Proof.
  unfold KNXHIDReportBody.length.
  destruct (KNXHIDReportBody._partial body) eqn:Hp;
    destruct (KNXHIDReportBody._body body) as [b | ] eqn:Hb;
    destruct (KNXHIDReportBody._header body) as [h | ] eqn:Hh;
    cbn [is_set andb];
    repeat match goal with
           | |- context [ if ?c then _ else _ ] => destruct c
           end;
    try (left; reflexivity);
    try (right; left; exists b; repeat split; reflexivity);
    right; right; exists h, b; repeat split; reflexivity.
Qed.

(** A continuation frame built from construction data never encodes to
    more than the three header bytes, whatever the transfer layer does. *)
Lemma frame_from_data_partial_to_knx
  (data : KNXHIDFrame.KNXHIDFrameData SequenceNumber PacketType ProtocolID EMIID)
  (l : list log_record) (f : KNXHIDFrame.t SequenceNumber PacketType H B)
  (enc : bytes) :
  KNXHIDReportBody.data_partial (KNXHIDFrame.data_hid_report_body_data data) = true ->
  KNXHIDFrame.from_data data = (l, Ok f) ->
  outcome (KNXHIDFrame.to_knx f) = Ok enc ->
  (length enc <= 3)%nat.
Proof.
  intros Hpartial Hf.
  destruct (frame_from_data_inv data l f Hf) as (body & Hbody & Hfb & Hfh & _).
  destruct (report_body_from_data_inv _ _ _ Hbody) as (b & _ & _ & _ & Hshape).
  rewrite Hpartial in Hshape. destruct Hshape as [Hnone _].
  unfold KNXHIDFrame.to_knx. rewrite Hfh, Hfb, outcome_bind.
  destruct (outcome (KNXHIDReportHeader.to_knx _)) as [hs | e] eqn:Hhs; [ | discriminate ].
  rewrite (report_body_to_knx_no_header body Hnone), bind_ret.
  cbn [ret outcome snd]. intros [= <-]. rewrite app_nil_r.
  apply (report_header_to_knx_length _ _ Hhs).
Qed.

(** The same for a frame decoded as a continuation. *)
Lemma frame_from_knx_partial_to_knx
  (data : bytes) (l : list log_record)
  (f : KNXHIDFrame.t SequenceNumber PacketType H B) (enc : bytes) :
  KNXHIDFrame.from_knx data true = (l, Ok f) ->
  outcome (KNXHIDFrame.to_knx f) = Ok enc ->
  (length enc <= 3)%nat.
Proof.
  unfold KNXHIDFrame.from_knx, KNXHIDFrame._init.
  destruct (if _ <? _ then _ else _) as [l0 [[] | e]]; [ | discriminate ].
  rewrite bind_Ok.
  destruct (KNXHIDReportHeader.from_knx _) as [l1 [h | e]]; [ | discriminate ].
  rewrite bind_Ok.
  destruct (KNXHIDReportBody.from_knx (slice_from 3 data) true) as [l2 [body | e]] eqn:Hbody;
    [ | discriminate ].
  rewrite bind_Ok. cbn [ret logged outcome fst snd]. intros Heq. injection Heq as _ <-.
  assert (Hnone : KNXHIDReportBody._header body = None).
  { revert Hbody. unfold KNXHIDReportBody.from_knx, KNXHIDReportBody._init.
    destruct (negb _).
    - intros Heq. injection Heq as _ <-. reflexivity.
    - cbn [KNXHIDReportBody.with_partial KNXHIDReportBody._partial].
      destruct (body_from_knx _) as [l3 [b | e]]; [ | discriminate ].
      rewrite bind_Ok. cbn [ret logged outcome fst snd]. intros Heq. injection Heq as _ <-.
      reflexivity. }
  unfold KNXHIDFrame.to_knx.
  cbn [KNXHIDFrame._header KNXHIDFrame._body KNXHIDFrame.with_is_valid
       KNXHIDFrame.with_body KNXHIDFrame.with_header KNXHIDFrame.with_partial].
  rewrite outcome_bind.
  destruct (outcome (KNXHIDReportHeader.to_knx h)) as [hs | e] eqn:Hhs; [ | discriminate ].
  rewrite (report_body_to_knx_no_header body Hnone), bind_ret.
  cbn [ret outcome snd]. intros [= <-]. rewrite app_nil_r.
  apply (report_header_to_knx_length _ _ Hhs).
Qed.

End FrameEncodeProperties.

(** ** The round trip of a start packet *)

Section RoundTrip.
Context {SequenceNumber PacketType : Type}.
Context {SN : PyEnum SequenceNumber} {PT : PyEnum PacketType}.
Context {ProtocolID EMIID H B : Type}.
Context {TH : TransferHeader ProtocolID EMIID H} {TB : TransferBody B}.

(** The three bytes of a valid header with report id 1. *)
Lemma report_header_to_knx_valid
  (sn : SequenceNumber) (pt : PacketType) (n : Z) (max : Z) :
  truthy sn = true -> truthy pt = true ->
  0 <= value sn < 16 -> 0 <= value pt < 16 ->
  0 <= n <= 255 ->
  exists pb lb : byte,
    KNXHIDReportHeader.to_knx
      {| KNXHIDReportHeader._report_id := 1;
         KNXHIDReportHeader._packet_info :=
           Some {| PacketInfo._sequence_number := Some sn;
                   PacketInfo._packet_type := Some pt |};
         KNXHIDReportHeader._data_length := n;
         KNXHIDReportHeader._max_expected_data_length := max;
         KNXHIDReportHeader._valid := true |} = ret [x01; pb; lb] /\
    Z.shiftr (int_of_byte pb) 4 = value sn /\
    Z.land (int_of_byte pb) 15 = value pt /\
    int_of_byte lb = n.
Proof.
  intros Hsn Hpt Hs Hp Hn.
  destruct (packet_info_to_knx_set sn pt Hsn Hpt Hs Hp) as (pb & Hpb & Hhi & Hlo).
  destruct (pack_B_in_range n Hn) as (lb & Hlb & Hv).
  exists pb, lb. unfold KNXHIDReportHeader.to_knx.
  cbn [KNXHIDReportHeader._valid KNXHIDReportHeader._packet_info
       KNXHIDReportHeader._report_id KNXHIDReportHeader._data_length].
  rewrite Hpb, bind_ret. change (pack_B 1) with (ret x01).
  rewrite bind_ret, Hlb, bind_ret. auto.
Qed.

(** The encoding of a report body that has both transfer objects. *)
Lemma report_body_to_knx_both
  (body : KNXHIDReportBody.t H B) (h : H) (b : B) (eh eb : bytes) :
  KNXHIDReportBody._header body = Some h ->
  KNXHIDReportBody._body body = Some b ->
  KNXHIDReportBody._partial body = false ->
  header_truthy h = true -> body_truthy b = true ->
  outcome (header_to_knx h) = Ok eh ->
  outcome (body_to_knx b false) = Ok eb ->
  outcome (KNXHIDReportBody.to_knx body) = Ok (eh ++ eb).
Proof.
  intros Hh Hb Hp Hth Htb Heh Heb. unfold KNXHIDReportBody.to_knx.
  rewrite Hh, Hb, Hp. cbn [is_set]. rewrite Hth, Htb. cbn [andb].
  rewrite outcome_bind, Heh, outcome_bind, Heb. reflexivity.
Qed.

Lemma firstn_app_exact {A} (n : nat) (xs ys : list A) :
  length xs = n -> firstn n (xs ++ ys) = xs.
Proof.
  intros <-. rewrite firstn_app, Nat.sub_diag, firstn_all. simpl. apply app_nil_r.
Qed.

Lemma skipn_app_exact {A} (n : nat) (xs ys : list A) :
  length xs = n -> skipn n (xs ++ ys) = ys.
Proof.
  intros <-. rewrite skipn_app, Nat.sub_diag, skipn_all. reflexivity.
Qed.

(** C1, as the code has it: a valid start frame built from construction
    data whose packet info has both fields set, with values that fit a
    nibble and that the enumerations map back, and whose transfer header and
    payload survive the transfer protocol layer in 8 and 53 bytes, encodes
    to bytes that decode and encode again to the same bytes. *)
Theorem frame_round_trip
  (data : KNXHIDFrame.KNXHIDFrameData SequenceNumber PacketType ProtocolID EMIID)
  (sn : SequenceNumber) (pt : PacketType)
  (l : list log_record) (f : KNXHIDFrame.t SequenceNumber PacketType H B)
  (body : KNXHIDReportBody.t H B) (h : H) (b : B) (enc : bytes) :
  KNXHIDReportBody.data_partial (KNXHIDFrame.data_hid_report_body_data data) = false ->
  KNXHIDFrame.data_packet_info data =
    PacketInfo.from_data {| PacketInfo.data_sequence_number := sn;
                            PacketInfo.data_packet_type := pt |} ->
  packet_info_round_trips sn pt ->
  KNXHIDFrame.from_data data = (l, Ok f) ->
  KNXHIDFrame.is_valid f = true ->
  KNXHIDFrame.report_body f = Some body ->
  KNXHIDReportBody.transfer_protocol_header body = Some h ->
  KNXHIDReportBody.transfer_protocol_body body = Some b ->
  transfer_round_trips h b ->
  outcome (KNXHIDFrame.to_knx f) = Ok enc ->
  outcome (f' <- KNXHIDFrame.decode (SN := SN) (PT := PT) (TH := TH) (TB := TB) enc ;;
           KNXHIDFrame.to_knx f') = Ok enc.
Proof.
  intros Hpartial Hpi (Hsn & Hpt & Hs & Hp & Hlsn & Hlpt) Hf Hvalid Hfbody Hh Hb
         (Hth & Htb & eh & eb & h' & b' & Heh & Hleh & Heb & Hleb & Hdh & Hdb
          & Hth' & Htb' & Heh' & Heb') Henc.
  destruct (frame_from_data_inv data l f Hf) as (body0 & Hbody & Hfb & Hfh & Hfv).
  unfold KNXHIDFrame.report_body in Hfbody. rewrite Hfb in Hfbody.
  injection Hfbody as ->.
  destruct (report_body_from_data_inv _ _ _ Hbody) as (b0 & Hb0 & Hp0 & _ & Hshape).
  rewrite Hpartial in Hshape. destruct Hshape as (h0 & Hh0 & _).
  unfold KNXHIDReportBody.transfer_protocol_header in Hh.
  unfold KNXHIDReportBody.transfer_protocol_body in Hb.
  (* the header that was built *)
  unfold KNXHIDFrame.is_valid in Hvalid. rewrite Hfv, Hpartial in Hvalid.
  apply andb_true_iff in Hvalid. destruct Hvalid as [Hhv _].
  rewrite Hpi in Hfh, Hhv.
  unfold KNXHIDReportHeader.from_data, KNXHIDReportHeader.is_valid in Hfh, Hhv.
  cbn [KNXHIDReportHeader.data_data_length KNXHIDReportHeader.data_packet_info
       KNXHIDReportHeader._max_expected_data_length KNXHIDReportHeader.with_packet_info
       KNXHIDReportHeader.__init__] in Hfh, Hhv.
  destruct (KNXHIDReportBody.length body <=? 61) eqn:Hle; [ clear Hhv | discriminate ].
  assert (Hfh' : KNXHIDFrame._header f =
                 Some {| KNXHIDReportHeader._report_id := 1;
                         KNXHIDReportHeader._packet_info :=
                           Some {| PacketInfo._sequence_number := Some sn;
                                   PacketInfo._packet_type := Some pt |};
                         KNXHIDReportHeader._data_length := KNXHIDReportBody.length body;
                         KNXHIDReportHeader._max_expected_data_length := 61;
                         KNXHIDReportHeader._valid := true |})
    by (rewrite Hfh; reflexivity).
  clear Hfh. rename Hfh' into Hfh.
  (* the encoding *)
  pose proof (report_body_to_knx_both body h b eh eb Hh Hb Hp0 Hth Htb Heh Heb) as Hbenc.
  unfold KNXHIDFrame.to_knx in Henc. rewrite Hfh, Hfb in Henc.
  rewrite outcome_bind in Henc.
  destruct (outcome (KNXHIDReportHeader.to_knx _)) as [hs | e] eqn:Hhs; [ | discriminate ].
  rewrite outcome_bind, Hbenc in Henc. cbn [ret outcome snd] in Henc. injection Henc as <-.
  assert (Hrange : 0 <= KNXHIDReportBody.length body <= 255).
  { revert Hhs. unfold KNXHIDReportHeader.to_knx.
    cbn [KNXHIDReportHeader._valid KNXHIDReportHeader._packet_info
         KNXHIDReportHeader._report_id KNXHIDReportHeader._data_length].
    rewrite outcome_bind. destruct (outcome (PacketInfo.to_knx _)); [ | discriminate ].
    rewrite outcome_bind. destruct (outcome (pack_B 1)); [ | discriminate ].
    rewrite outcome_bind.
    destruct (outcome (pack_B (KNXHIDReportBody.length body))) as [lb | e] eqn:Hlb;
      [ | discriminate ].
    intros _. destruct (pack_B_Ok _ _ Hlb) as [_ <-]. apply int_of_byte_range. }
  destruct (report_header_to_knx_valid sn pt (KNXHIDReportBody.length body) 61
              Hsn Hpt Hs Hp Hrange) as (pb & lb & Hhenc & Hhi & Hlo & Hlen).
  rewrite Hhenc in Hhs. cbn [ret outcome snd] in Hhs. injection Hhs as <-.
  (* decoding it *)
  assert (Hbody' : exists lb',
             KNXHIDReportBody.from_knx (eh ++ eb) false =
             (lb', Ok {| KNXHIDReportBody._max_size := 61;
                         KNXHIDReportBody._header := Some h';
                         KNXHIDReportBody._body := Some b';
                         KNXHIDReportBody._is_valid := header_is_valid h' && body_is_valid b';
                         KNXHIDReportBody._partial := false |})).
  { rewrite (report_body_from_knx_61 (eh ++ eb) false)
      by (rewrite length_app, Hleh, Hleb; reflexivity).
    unfold slice_to, slice_from.
    rewrite (firstn_app_exact 8 eh eb Hleh), (skipn_app_exact 8 eh eb Hleh).
    rewrite (py_eta (header_from_knx eh)), Hdh, bind_Ok.
    rewrite (py_eta (body_from_knx eb)), Hdb, bind_Ok.
    eexists. reflexivity. }
  destruct Hbody' as (lb' & Hbody').
  unfold KNXHIDFrame.decode.
  change ([x01; pb; lb] ++ eh ++ eb) with (x01 :: pb :: lb :: eh ++ eb).
  rewrite <- Hhi in Hlsn. rewrite <- Hlo in Hlpt.
  rewrite (frame_from_knx_mapped x01 pb lb (eh ++ eb) false sn pt lb' _ Hlsn Hlpt Hbody').
  rewrite outcome_bind. cbn [outcome snd].
  unfold KNXHIDFrame.to_knx. cbn [KNXHIDFrame._header KNXHIDFrame._body].
  change (int_of_byte x01 =? 1) with true.
  rewrite outcome_bind.
  destruct (report_header_to_knx_valid sn pt (int_of_byte lb) 61
              Hsn Hpt Hs Hp (int_of_byte_range lb)) as (pb2 & lb2 & Hhenc2 & Hhi2 & Hlo2 & Hlen2).
  assert (Hsame : pb2 = pb /\ lb2 = lb).
  { rewrite Hlen, Hhenc in Hhenc2. unfold ret in Hhenc2.
    injection Hhenc2 as <- <-. split; reflexivity. }
  destruct Hsame as [-> ->].
  change (int_of_byte x01) with 1. rewrite Hhenc2. cbn [ret outcome snd].
  rewrite outcome_bind.
  rewrite (report_body_to_knx_both _ h' b' eh eb) by (reflexivity || assumption).
  reflexivity.
Qed.

End RoundTrip.

(** ** The codec on concrete reports *)

(** C1 on the single-packet telegram of the specification. *)
Lemma frame_round_trip_witness :
  exists f : Knx.Frame,
    KNXHIDFrame.from_data Knx.single_packet = ret f /\
    KNXHIDFrame.is_valid f = true /\
    KNXHIDFrame.to_knx f = ret Knx.single_packet_bytes /\
    outcome (f' <- (KNXHIDFrame.decode Knx.single_packet_bytes : py Knx.Frame) ;;
             KNXHIDFrame.to_knx f') = Ok Knx.single_packet_bytes.
Proof.
  eexists. split; [ reflexivity | ]. split; [ reflexivity | ]. split; [ reflexivity | ].
  eapply (frame_round_trip Knx.single_packet Knx.FIRST_PACKET Knx.START_AND_END);
    try reflexivity.
  - unfold packet_info_round_trips. simpl. repeat split; lia.
  - unfold transfer_round_trips. split; [ reflexivity | ]. split; [ reflexivity | ].
    eexists. eexists. eexists. eexists.
    repeat (split; [ reflexivity | ]). reflexivity.
Defined.

(** C1 fails on a valid start frame whose packet info was never set: the
    header byte is [0x00], and decoding it raises [ValueError]. *)
Lemma frame_round_trip_unset_packet_info :
  exists (f : Knx.Frame) (enc : bytes),
    KNXHIDFrame.from_data Knx.unset_packet_info = ret f /\
    KNXHIDFrame.is_valid f = true /\
    KNXHIDFrame.to_knx f = ret enc /\
    outcome (f' <- (KNXHIDFrame.decode enc : py Knx.Frame) ;; KNXHIDFrame.to_knx f')
      = Raise ValueError.
Proof.
  eexists. eexists. repeat (split; [ reflexivity | ]). reflexivity.
Qed.

(** C2 fails on the packet info byte [0x00]: sequence number 0 is not a
    variant, and [from_knx] raises instead of returning. *)
Lemma packet_info_from_knx_zero_raises :
  (PacketInfo.from_knx [x00] : py Knx.PacketInfo) = raise ValueError /\
  ~ exists p, outcome (PacketInfo.from_knx [x00] : py Knx.PacketInfo) = Ok p.
Proof.
  split; [ reflexivity | ]. intros [p Hp]. discriminate Hp.
Qed.

(** C2 on the 64 bytes of the single-packet telegram. *)
Lemma decoders_return_when_mapped_witness :
  exists (log : list log_record) (f : Knx.Frame),
    KNXHIDFrame.from_knx Knx.single_packet_bytes false = (log, Ok f).
Proof.
  apply (proj2 (proj2 (proj2 (proj2
           (decoders_return_when_mapped
              (SN := Knx.SequenceNumber_enum) (PT := Knx.PacketType_enum)
              (TH := Knx.transfer_header) (TB := Knx.transfer_body)))))
           Knx.single_packet_bytes false x13);
    [ simpl; lia | reflexivity | reflexivity | reflexivity ].
Defined.

(** C3 fails on the header [02 00 00]: no header is returned. *)
Lemma report_header_from_knx_unmapped_raises :
  (KNXHIDReportHeader.from_knx [x02; x00; x00] : py Knx.ReportHeader) = raise ValueError /\
  ~ exists h, outcome (KNXHIDReportHeader.from_knx [x02; x00; x00] : py Knx.ReportHeader) = Ok h /\
              KNXHIDReportHeader.is_valid h = false.
Proof.
  split; [ reflexivity | ]. intros [h [Hh _]]. discriminate Hh.
Qed.

(** C3 on the header [02 13 12]. *)
Lemma report_header_report_id_gate_witness :
  exists h : Knx.ReportHeader,
    KNXHIDReportHeader.from_knx [x02; x13; x12] = ret h /\
    KNXHIDReportHeader.is_valid h = false.
Proof.
  apply (proj1 (report_header_report_id_gate
                  (SN := Knx.SequenceNumber_enum) (PT := Knx.PacketType_enum))
           x02 x13 x12);
    [ reflexivity | vm_compute; discriminate ].
Defined.

(** C6 fails on 63 bytes whose packet info byte is [0x00]: the warning is
    logged and then [ValueError] unwinds, so no frame is produced. *)
Lemma frame_from_knx_short_unmapped_raises :
  (KNXHIDFrame.from_knx (x01 :: repeat x00 62) false : py Knx.Frame) =
    ([LogRecord WARNING (FrameLength 63)], Raise ValueError) /\
  ~ exists f, outcome (KNXHIDFrame.from_knx (x01 :: repeat x00 62) false : py Knx.Frame) = Ok f.
Proof.
  split; [ reflexivity | ]. intros [f Hf]. discriminate Hf.
Qed.

(** C6 on the single-packet telegram cut to 63 bytes. *)
Lemma frame_from_knx_short_witness :
  exists (lb : list log_record) (f : Knx.Frame),
    KNXHIDFrame.from_knx Knx.truncated_bytes false =
      (LogRecord WARNING (FrameLength 63) :: lb, Ok f) /\
    KNXHIDFrame.is_valid f = false.
Proof.
  destruct (frame_from_knx_short
              (SN := Knx.SequenceNumber_enum) (PT := Knx.PacketType_enum)
              (TH := Knx.transfer_header) (TB := Knx.transfer_body)
              Knx.truncated_bytes false x13)
    as (h & lb & body & f & _ & _ & Hf & _ & _ & _ & _ & Hv);
    [ simpl; lia | reflexivity | reflexivity | ].
  exists lb, f. split; assumption.
Defined.

(** C7: a valid frame must encode to 64 bytes, but the continuation frame
    built from ten payload bytes is valid and encodes to the three header
    bytes only: [KNXHIDReportBody.to_knx] returns nothing when the body has
    no transfer header, and the data length byte is 0. *)
Theorem continuation_frame_encodes_header_only :
  exists f : Knx.Frame,
    KNXHIDFrame.from_data Knx.continuation_packet = ret f /\
    KNXHIDFrame.is_valid f = true /\
    KNXHIDFrame.to_knx f = ret [x01; x24; x00].
Proof.
  eexists. repeat (split; [ reflexivity | ]). reflexivity.
Qed.

(** * Further properties of the codec *)

(** ** The packet info and the report header on their own *)

Lemma nibbles_join (v : Z) :
  Z.lor (Z.shiftl (Z.shiftr v 4) 4) (Z.land v 15) = v.
Proof.
  change 15 with (Z.ones 4). rewrite <- Z.ldiff_ones_r by lia.
  apply Z.lor_ldiff_and.
Qed.

Section HeaderProperties.
Context {SequenceNumber PacketType : Type}.
Context {SN : PyEnum SequenceNumber} {PT : PyEnum PacketType}.

(** The encoding of a packet info read from a byte that round-trips. *)
Lemma packet_info_to_knx_of_byte (b : byte) (sn : SequenceNumber) (pt : PacketType) :
  value sn = Z.shiftr (int_of_byte b) 4 ->
  value pt = Z.land (int_of_byte b) 15 ->
  truthy sn = true -> truthy pt = true ->
  PacketInfo.to_knx {| PacketInfo._sequence_number := Some sn;
                       PacketInfo._packet_type := Some pt |} = ret [b].
Proof.
  intros Hvs Hvp Hsn Hpt. unfold PacketInfo.to_knx.
  cbn [PacketInfo._sequence_number PacketInfo._packet_type is_set].
  rewrite Hsn, Hpt, Hvs, Hvp, nibbles_join, pack_B_int_of_byte, bind_ret.
  reflexivity.
Qed.

(** X1: a packet info with both fields set encodes to one byte, and that
    byte decodes to the same packet info. *)
Theorem packet_info_encode_decode (sn : SequenceNumber) (pt : PacketType) :
  packet_info_round_trips sn pt ->
  exists b : byte,
    PacketInfo.to_knx
      (PacketInfo.from_data {| PacketInfo.data_sequence_number := sn;
                               PacketInfo.data_packet_type := pt |}) = ret [b] /\
    PacketInfo.from_knx [b] =
      ret (PacketInfo.from_data {| PacketInfo.data_sequence_number := sn;
                                   PacketInfo.data_packet_type := pt |}).
Proof.
  intros (Hsn & Hpt & Hs & Hp & Hlsn & Hlpt).
  destruct (packet_info_to_knx_set sn pt Hsn Hpt Hs Hp) as (b & Hb & Hhi & Hlo).
  exists b. split; [ exact Hb | ].
  rewrite <- Hhi in Hlsn. rewrite <- Hlo in Hlpt.
  apply (packet_info_from_knx_mapped b sn pt Hlsn Hlpt).
Qed.

(** X2: a byte whose nibbles are the values of truthy variants decodes to a
    packet info that encodes to the same byte. *)
Theorem packet_info_decode_encode (b : byte) :
  packet_byte_round_trips (SN := SN) (PT := PT) b ->
  (p <- PacketInfo.from_knx (SN := SN) (PT := PT) [b] ;; PacketInfo.to_knx p) = ret [b].
Proof.
  intros (sn & pt & Hlsn & Hlpt & Hvs & Hvp & Hsn & Hpt).
  rewrite (packet_info_from_knx_mapped b sn pt Hlsn Hlpt), bind_ret.
  apply packet_info_to_knx_of_byte; assumption.
Qed.

(** X3: given anything but one byte, [PacketInfo.from_knx] logs one error
    and returns a packet info with neither field set, which encodes to the
    empty byte string. *)
Theorem packet_info_from_knx_not_one_byte (data : bytes) :
  length data <> 1%nat ->
  exists p : PacketInfo.t SequenceNumber PacketType,
    PacketInfo.from_knx data =
      ([LogRecord ERROR (PacketInfoLength (length data))], Ok p) /\
    PacketInfo.sequence_number p = None /\
    PacketInfo.packet_type p = None /\
    PacketInfo.to_knx p = ret [].
Proof.
  intros Hlen. exists PacketInfo.__init__.
  split; [ apply packet_info_from_knx_wrong_length; assumption | ].
  repeat split.
Qed.

(** X4: a header that is not valid encodes to the empty byte string without
    raising; a valid header encodes, when it does, to exactly three bytes. *)
Theorem report_header_to_knx_size (h : KNXHIDReportHeader.t SequenceNumber PacketType) :
  (KNXHIDReportHeader.is_valid h = false -> KNXHIDReportHeader.to_knx h = ret []) /\
  (forall bs : bytes,
      KNXHIDReportHeader.is_valid h = true ->
      outcome (KNXHIDReportHeader.to_knx h) = Ok bs ->
      length bs = 3%nat).
Proof.
  unfold KNXHIDReportHeader.is_valid, KNXHIDReportHeader.to_knx. split.
  - intros ->. reflexivity.
  - intros bs ->.
    destruct (KNXHIDReportHeader._packet_info h) as [p | ]; [ | discriminate ].
    rewrite outcome_bind. destruct (outcome (PacketInfo.to_knx p)) as [s | e];
      [ | discriminate ].
    rewrite outcome_bind. destruct (outcome (pack_B _)) as [b0 | e]; [ | discriminate ].
    rewrite outcome_bind. destruct (outcome (pack_B _)) as [b2 | e]; [ | discriminate ].
    cbn [ret outcome snd]. intros [= <-]. reflexivity.
Qed.

(** X5: a header built for a body of 0 to 61 bytes with a packet info that
    round-trips encodes to three bytes, and those bytes decode to the very
    same header. *)
Theorem report_header_encode_decode (sn : SequenceNumber) (pt : PacketType) (n : Z) :
  packet_info_round_trips sn pt ->
  0 <= n <= 61 ->
  exists bs : bytes,
    KNXHIDReportHeader.to_knx
      (KNXHIDReportHeader.from_data
         {| KNXHIDReportHeader.data_packet_info :=
              PacketInfo.from_data {| PacketInfo.data_sequence_number := sn;
                                      PacketInfo.data_packet_type := pt |};
            KNXHIDReportHeader.data_data_length := n |}) = ret bs /\
    length bs = 3%nat /\
    KNXHIDReportHeader.from_knx bs =
      ret (KNXHIDReportHeader.from_data
             {| KNXHIDReportHeader.data_packet_info :=
                  PacketInfo.from_data {| PacketInfo.data_sequence_number := sn;
                                          PacketInfo.data_packet_type := pt |};
                KNXHIDReportHeader.data_data_length := n |}).
Proof.
  intros (Hsn & Hpt & Hs & Hp & Hlsn & Hlpt) Hn.
  unfold KNXHIDReportHeader.from_data.
  cbn [KNXHIDReportHeader.data_data_length KNXHIDReportHeader.data_packet_info
       KNXHIDReportHeader._max_expected_data_length KNXHIDReportHeader.with_packet_info
       KNXHIDReportHeader.__init__].
  replace (n <=? 61) with true by (symmetry; apply Z.leb_le; lia).
  unfold KNXHIDReportHeader.with_valid, KNXHIDReportHeader.with_data_length,
    PacketInfo.from_data.
  cbn [KNXHIDReportHeader._report_id KNXHIDReportHeader._packet_info
       KNXHIDReportHeader._data_length KNXHIDReportHeader._max_expected_data_length
       KNXHIDReportHeader._valid PacketInfo.data_sequence_number
       PacketInfo.data_packet_type].
  destruct (report_header_to_knx_valid sn pt n 61 Hsn Hpt Hs Hp ltac:(lia))
    as (pb & lb & Henc & Hhi & Hlo & Hlen).
  exists [x01; pb; lb]. split; [ exact Henc | ]. split; [ reflexivity | ].
  rewrite <- Hhi in Hlsn. rewrite <- Hlo in Hlpt.
  rewrite (report_header_from_knx_mapped x01 pb lb [] sn pt) by (simpl; lia || assumption).
  rewrite Hlen. reflexivity.
Qed.

(** X6: three header bytes whose packet info byte round-trips decode and
    encode back to themselves when the report id is 1, and to the empty
    byte string when it is not. *)
Theorem report_header_decode_encode (b0 b1 b2 : byte) :
  packet_byte_round_trips (SN := SN) (PT := PT) b1 ->
  (h <- KNXHIDReportHeader.from_knx (SN := SN) (PT := PT) [b0; b1; b2] ;;
   KNXHIDReportHeader.to_knx h) =
  ret (if int_of_byte b0 =? 1 then [b0; b1; b2] else []).
Proof.
  intros (sn & pt & Hlsn & Hlpt & Hvs & Hvp & Hsn & Hpt).
  rewrite (report_header_from_knx_mapped b0 b1 b2 [] sn pt) by (simpl; lia || assumption).
  rewrite bind_ret. unfold KNXHIDReportHeader.to_knx.
  cbn [KNXHIDReportHeader._valid KNXHIDReportHeader._packet_info
       KNXHIDReportHeader._report_id KNXHIDReportHeader._data_length].
  destruct (int_of_byte b0 =? 1); [ | reflexivity ].
  rewrite (packet_info_to_knx_of_byte b1 sn pt Hvs Hvp Hsn Hpt), bind_ret.
  rewrite !pack_B_int_of_byte, !bind_ret. reflexivity.
Qed.



(** X8: on more than 61 bytes [KNXHIDReportHeader.from_knx] reads nothing:
    it logs one error and returns the initial header, which is not valid,
    keeps report id 1, no packet info and data length 0, and encodes to the
    empty byte string. *)
Theorem report_header_from_knx_over_61 (data : bytes) :
  (61 < length data)%nat ->
  exists h : KNXHIDReportHeader.t SequenceNumber PacketType,
    KNXHIDReportHeader.from_knx data =
      ([LogRecord ERROR (ReportHeaderLength (length data))], Ok h) /\
    KNXHIDReportHeader.is_valid h = false /\
    KNXHIDReportHeader.report_id h = 1 /\
    KNXHIDReportHeader.packet_info h = None /\
    KNXHIDReportHeader.data_length h = 0 /\
    KNXHIDReportHeader.to_knx h = ret [].
Proof.
  intros Hlen. exists KNXHIDReportHeader.__init__.
  split; [ apply report_header_from_knx_too_long; assumption | ].
  repeat split.
Qed.

(** X9: a header built for a body of more than 61 bytes is not valid, keeps
    data length 0 instead of the length it was given, and encodes to the
    empty byte string. *)
Theorem report_header_from_data_over_61
  (p : PacketInfo.t SequenceNumber PacketType) (n : Z) :
  61 < n ->
  KNXHIDReportHeader.is_valid
    (KNXHIDReportHeader.from_data
       {| KNXHIDReportHeader.data_packet_info := p;
          KNXHIDReportHeader.data_data_length := n |}) = false /\
  KNXHIDReportHeader.data_length
    (KNXHIDReportHeader.from_data
       {| KNXHIDReportHeader.data_packet_info := p;
          KNXHIDReportHeader.data_data_length := n |}) = 0 /\
  KNXHIDReportHeader.packet_info
    (KNXHIDReportHeader.from_data
       {| KNXHIDReportHeader.data_packet_info := p;
          KNXHIDReportHeader.data_data_length := n |}) = Some p /\
  KNXHIDReportHeader.to_knx
    (KNXHIDReportHeader.from_data
       {| KNXHIDReportHeader.data_packet_info := p;
          KNXHIDReportHeader.data_data_length := n |}) = ret [].
Proof.
  intros Hn. unfold KNXHIDReportHeader.from_data.
  cbn [KNXHIDReportHeader.data_data_length KNXHIDReportHeader.data_packet_info
       KNXHIDReportHeader._max_expected_data_length KNXHIDReportHeader.with_packet_info
       KNXHIDReportHeader.__init__].
  replace (n <=? 61) with false by (symmetry; apply Z.leb_gt; lia).
  repeat split.
Qed.

(** X10: a negative body length passes the check of [from_data], so the
    header is valid and keeps it; encoding that header raises
    [struct.error] once the packet info is encoded. *)
Theorem report_header_from_data_negative
  (p : PacketInfo.t SequenceNumber PacketType) (n : Z) (s : bytes) :
  n < 0 ->
  outcome (PacketInfo.to_knx p) = Ok s ->
  KNXHIDReportHeader.is_valid
    (KNXHIDReportHeader.from_data
       {| KNXHIDReportHeader.data_packet_info := p;
          KNXHIDReportHeader.data_data_length := n |}) = true /\
  KNXHIDReportHeader.data_length
    (KNXHIDReportHeader.from_data
       {| KNXHIDReportHeader.data_packet_info := p;
          KNXHIDReportHeader.data_data_length := n |}) = n /\
  outcome
    (KNXHIDReportHeader.to_knx
       (KNXHIDReportHeader.from_data
          {| KNXHIDReportHeader.data_packet_info := p;
             KNXHIDReportHeader.data_data_length := n |})) = Raise StructError.
Proof.
  intros Hn Hs. unfold KNXHIDReportHeader.from_data.
  cbn [KNXHIDReportHeader.data_data_length KNXHIDReportHeader.data_packet_info
       KNXHIDReportHeader._max_expected_data_length KNXHIDReportHeader.with_packet_info
       KNXHIDReportHeader.__init__].
  replace (n <=? 61) with true by (symmetry; apply Z.leb_le; lia).
  split; [ reflexivity | ]. split; [ reflexivity | ].
  unfold KNXHIDReportHeader.to_knx.
  cbn [KNXHIDReportHeader._valid KNXHIDReportHeader._packet_info
       KNXHIDReportHeader._report_id KNXHIDReportHeader._data_length
       KNXHIDReportHeader.with_valid KNXHIDReportHeader.with_data_length
       KNXHIDReportHeader.with_packet_info KNXHIDReportHeader.__init__].
  rewrite outcome_bind, Hs. change (pack_B 1) with (ret x01). rewrite bind_ret.
  rewrite outcome_bind. unfold pack_B.
  replace (0 <=? n) with false by (symmetry; apply Z.leb_gt; lia).
  reflexivity.
Qed.

End HeaderProperties.

Section HeaderCompositions.
Context {SequenceNumber PacketType : Type}.
Context {SN : PyEnum SequenceNumber} {PT : PyEnum PacketType}.

(** X11: setting the report id of a valid header to a byte other than 1
    logs a warning and leaves the header valid; the header then encodes
    with that report id, and its bytes decode to a header that is not
    valid. *)
Theorem report_header_set_report_id
  (sn : SequenceNumber) (pt : PacketType) (n v : Z) :
  packet_info_round_trips sn pt ->
  0 <= n <= 61 -> 0 <= v <= 255 -> v <> 1 ->
  exists (h' : KNXHIDReportHeader.t SequenceNumber PacketType) (bs : bytes)
         (h'' : KNXHIDReportHeader.t SequenceNumber PacketType),
    KNXHIDReportHeader.set_report_id
      (KNXHIDReportHeader.from_data
         {| KNXHIDReportHeader.data_packet_info :=
              PacketInfo.from_data {| PacketInfo.data_sequence_number := sn;
                                      PacketInfo.data_packet_type := pt |};
            KNXHIDReportHeader.data_data_length := n |}) v =
      ([LogRecord WARNING ReportIdNotOne], Ok h') /\
    KNXHIDReportHeader.is_valid h' = true /\
    KNXHIDReportHeader.report_id h' = v /\
    KNXHIDReportHeader.to_knx h' = ret bs /\
    length bs = 3%nat /\
    KNXHIDReportHeader.from_knx bs = ret h'' /\
    KNXHIDReportHeader.report_id h'' = v /\
    KNXHIDReportHeader.is_valid h'' = false.
Proof.
  intros (Hsn & Hpt & Hs & Hp & Hlsn & Hlpt) Hn Hv Hne.
  unfold KNXHIDReportHeader.set_report_id, KNXHIDReportHeader.from_data.
  cbn [KNXHIDReportHeader.data_data_length KNXHIDReportHeader.data_packet_info
       KNXHIDReportHeader._max_expected_data_length KNXHIDReportHeader.with_packet_info
       KNXHIDReportHeader.__init__].
  replace (n <=? 61) with true by (symmetry; apply Z.leb_le; lia).
  replace (v =? 1) with false by (symmetry; apply Z.eqb_neq; assumption).
  cbn [negb].
  destruct (packet_info_to_knx_set sn pt Hsn Hpt Hs Hp) as (pb & Hpb & Hhi & Hlo).
  destruct (pack_B_in_range v Hv) as (bv & Hbv & Hiv).
  destruct (pack_B_in_range n ltac:(lia)) as (lb & Hlb & Hin).
  eexists. exists [bv; pb; lb]. eexists.
  split; [ reflexivity | ]. split; [ reflexivity | ]. split; [ reflexivity | ].
  split.
  { unfold KNXHIDReportHeader.to_knx, PacketInfo.from_data.
    cbn [KNXHIDReportHeader._valid KNXHIDReportHeader._packet_info
         KNXHIDReportHeader._report_id KNXHIDReportHeader._data_length
         KNXHIDReportHeader.with_valid KNXHIDReportHeader.with_data_length
         KNXHIDReportHeader.with_report_id KNXHIDReportHeader.with_packet_info
         KNXHIDReportHeader.__init__
         PacketInfo.data_sequence_number PacketInfo.data_packet_type].
    rewrite Hpb, bind_ret, Hbv, bind_ret, Hlb, bind_ret. reflexivity. }
  split; [ reflexivity | ].
  rewrite <- Hhi in Hlsn. rewrite <- Hlo in Hlpt.
  rewrite (report_header_from_knx_mapped bv pb lb [] sn pt) by (simpl; lia || assumption).
  split; [ reflexivity | ].
  unfold KNXHIDReportHeader.report_id, KNXHIDReportHeader.is_valid.
  cbn [KNXHIDReportHeader._report_id KNXHIDReportHeader._valid].
  split; [ exact Hiv | ]. rewrite Hiv. apply Z.eqb_neq. assumption.
Qed.

(** X12: a header built with a packet info whose fields were never set is
    valid and encodes the packet info as the null byte; where sequence
    number 0 is no variant, decoding those three bytes raises
    [ValueError]. *)
Theorem report_header_unset_packet_info (n : Z) :
  0 <= n <= 61 ->
  exists lb : byte,
    KNXHIDReportHeader.is_valid
      (KNXHIDReportHeader.from_data
         {| KNXHIDReportHeader.data_packet_info :=
              PacketInfo.__init__ (SequenceNumber := SequenceNumber)
                                  (PacketType := PacketType);
            KNXHIDReportHeader.data_data_length := n |}) = true /\
    KNXHIDReportHeader.to_knx
      (KNXHIDReportHeader.from_data
         {| KNXHIDReportHeader.data_packet_info :=
              PacketInfo.__init__ (SequenceNumber := SequenceNumber)
                                  (PacketType := PacketType);
            KNXHIDReportHeader.data_data_length := n |}) = ret [x01; x00; lb] /\
    int_of_byte lb = n /\
    (lookup (E := SequenceNumber) 0 = None ->
     KNXHIDReportHeader.from_knx (SN := SN) (PT := PT) [x01; x00; lb] =
       raise ValueError).
Proof.
  intros Hn. destruct (pack_B_in_range n ltac:(lia)) as (lb & Hlb & Hin).
  exists lb. unfold KNXHIDReportHeader.from_data.
  cbn [KNXHIDReportHeader.data_data_length KNXHIDReportHeader.data_packet_info
       KNXHIDReportHeader._max_expected_data_length KNXHIDReportHeader.with_packet_info
       KNXHIDReportHeader.__init__].
  replace (n <=? 61) with true by (symmetry; apply Z.leb_le; lia).
  split; [ reflexivity | ]. split.
  { unfold KNXHIDReportHeader.to_knx.
    cbn [KNXHIDReportHeader._valid KNXHIDReportHeader._packet_info
         KNXHIDReportHeader._report_id KNXHIDReportHeader._data_length
         KNXHIDReportHeader.with_valid KNXHIDReportHeader.with_data_length
         KNXHIDReportHeader.with_packet_info KNXHIDReportHeader.__init__].
    change (PacketInfo.to_knx PacketInfo.__init__) with (ret (@nil byte)).
    rewrite bind_ret. change (pack_B 1) with (ret x01).
    rewrite bind_ret, Hlb, bind_ret. reflexivity. }
  split; [ exact Hin | ].
  intros Hzero.
  assert (Hmap : nibbles_map (SN := SN) (PT := PT) x00 = false).
  { unfold nibbles_map. change (Z.shiftr (int_of_byte x00) 4) with 0.
    rewrite Hzero. reflexivity. }
  unfold KNXHIDReportHeader.from_knx, KNXHIDReportHeader._init.
  cbn [KNXHIDReportHeader._max_expected_data_length KNXHIDReportHeader.__init__].
  change (Z.of_nat (length [x01; x00; lb]) >? 61) with false. cbv iota.
  unfold getitem at 1. cbn [nth_error]. rewrite bind_ret.
  change (slice 1 2 [x01; x00; lb]) with [x00].
  rewrite (packet_info_from_knx_unmapped x00 Hmap). reflexivity.
Qed.

End HeaderCompositions.

(** ** The report body and the frame on their own *)

Section BodyFrameProperties.
Context {SequenceNumber PacketType : Type}.
Context {SN : PyEnum SequenceNumber} {PT : PyEnum PacketType}.
Context {ProtocolID EMIID H B : Type}.
Context {TH : TransferHeader ProtocolID EMIID H} {TB : TransferBody B}.

(** What a valid decoded report body looks like. *)
Lemma report_body_from_knx_valid_inv
  (data : bytes) (partial : bool) (l : list log_record)
  (body : KNXHIDReportBody.t H B) :
  KNXHIDReportBody.from_knx data partial = (l, Ok body) ->
  KNXHIDReportBody.is_valid body = true ->
  length data = 61%nat /\
  KNXHIDReportBody._partial body = partial /\
  exists b : B,
    KNXHIDReportBody._body body = Some b /\ body_is_valid b = true /\
    if partial then KNXHIDReportBody._header body = None
    else exists h : H,
        KNXHIDReportBody._header body = Some h /\ header_is_valid h = true.
Proof.
  destruct (Nat.eq_dec (length data) 61) as [Hlen | Hlen].
  - rewrite (report_body_from_knx_61 data partial Hlen). destruct partial.
    + destruct (body_from_knx data) as [l0 [b | e]]; [ | discriminate ].
      rewrite bind_Ok. cbn [ret logged outcome fst snd].
      intros Heq. injection Heq as _ <-.
      unfold KNXHIDReportBody.is_valid. cbn [KNXHIDReportBody._is_valid].
      intros Hv. repeat split; try assumption. exists b. repeat split. assumption.
    + destruct (header_from_knx _) as [l0 [h | e]]; [ | discriminate ].
      rewrite bind_Ok.
      destruct (body_from_knx _) as [l1 [b | e]]; [ | discriminate ].
      rewrite bind_Ok. cbn [ret logged outcome fst snd].
      intros Heq. injection Heq as _ <-.
      unfold KNXHIDReportBody.is_valid. cbn [KNXHIDReportBody._is_valid].
      intros Hv. apply andb_true_iff in Hv. destruct Hv as [Hvh Hvb].
      repeat split; try assumption. exists b. repeat split; try assumption.
      exists h. split; [ reflexivity | assumption ].
  - rewrite (report_body_from_knx_wrong_length data partial Hlen).
    intros Heq. injection Heq as _ <-. discriminate.
Qed.

(** A report body decoded as a continuation has no transfer header. *)
Lemma report_body_from_knx_partial_no_header
  (data : bytes) (l : list log_record) (body : KNXHIDReportBody.t H B) :
  KNXHIDReportBody.from_knx data true = (l, Ok body) ->
  KNXHIDReportBody._header body = None /\
  (KNXHIDReportBody._body body = None \/ KNXHIDReportBody._partial body = true).
Proof.
  unfold KNXHIDReportBody.from_knx, KNXHIDReportBody._init.
  destruct (negb _).
  - intros Heq. injection Heq as _ <-. split; [ reflexivity | left; reflexivity ].
  - cbn [KNXHIDReportBody.with_partial KNXHIDReportBody._partial].
    destruct (body_from_knx _) as [l3 [b | e]]; [ | discriminate ].
    rewrite bind_Ok. cbn [ret logged outcome fst snd].
    intros Heq. injection Heq as _ <-.
    split; [ reflexivity | right; reflexivity ].
Qed.

(** Decoding and encoding the 61 bytes of a start packet. *)
Lemma report_body_decode_encode_outcome (data : bytes) :
  length data = 61%nat ->
  transfer_decodes_back (TH := TH) (TB := TB) data ->
  outcome (body <- KNXHIDReportBody.from_knx (TH := TH) (TB := TB) data false ;;
           KNXHIDReportBody.to_knx body) = Ok data.
Proof.
  intros Hlen (h & b & Hdh & Hdb & Hth & Htb & Heh & Heb).
  rewrite (report_body_from_knx_61 data false Hlen), outcome_bind.
  rewrite outcome_bind, Hdh, outcome_bind, Hdb. cbn [ret outcome snd].
  rewrite (report_body_to_knx_both _ h b (slice_to 8 data) (slice_from 8 data))
    by (reflexivity || assumption).
  unfold slice_to, slice_from. rewrite firstn_skipn. reflexivity.
Qed.

(** X13: a report body built from construction data with [partial] set has
    no transfer header; its flag [_partial] stays false, so its length is 0
    and it encodes to the empty byte string, whatever the payload; it is
    valid when the payload is. *)
Theorem report_body_from_data_partial
  (bd : KNXHIDReportBody.KNXHIDReportBodyData ProtocolID EMIID)
  (l : list log_record) (body : KNXHIDReportBody.t H B) :
  KNXHIDReportBody.data_partial bd = true ->
  KNXHIDReportBody.from_data bd = (l, Ok body) ->
  KNXHIDReportBody.transfer_protocol_header body = None /\
  KNXHIDReportBody.length body = 0 /\
  KNXHIDReportBody.to_knx body = ret [] /\
  exists b : B,
    KNXHIDReportBody.transfer_protocol_body body = Some b /\
    KNXHIDReportBody.is_valid body = body_is_valid b.
Proof.
  intros Hpartial Hbody.
  destruct (report_body_from_data_inv bd l body Hbody) as (b & Hb & Hp & _ & Hshape).
  rewrite Hpartial in Hshape. destruct Hshape as [Hnone Hv].
  split; [ exact Hnone | ]. split.
  { unfold KNXHIDReportBody.length. rewrite Hp, Hnone. reflexivity. }
  split; [ apply report_body_to_knx_no_header; exact Hnone | ].
  exists b. split; assumption.
Qed.

(** X14: a decoded report body is valid only if the buffer had exactly 61
    bytes and the payload was decoded valid; a start packet then also has a
    valid transfer header, a continuation has none. *)
Theorem report_body_from_knx_valid
  (data : bytes) (partial : bool) (l : list log_record)
  (body : KNXHIDReportBody.t H B) :
  KNXHIDReportBody.from_knx data partial = (l, Ok body) ->
  KNXHIDReportBody.is_valid body = true ->
  length data = 61%nat /\
  exists b : B,
    KNXHIDReportBody.transfer_protocol_body body = Some b /\ body_is_valid b = true /\
    if partial then KNXHIDReportBody.transfer_protocol_header body = None
    else exists h : H,
        KNXHIDReportBody.transfer_protocol_header body = Some h /\
        header_is_valid h = true.
Proof.
  intros Hbody Hv.
  destruct (report_body_from_knx_valid_inv data partial l body Hbody Hv)
    as (Hlen & _ & b & Hb & Hvb & Hh).
  split; [ exact Hlen | ]. exists b. repeat split; assumption.
Qed.

(** X15: a report body decoded as a continuation encodes to the empty byte
    string although its length is that of the payload. *)
Theorem report_body_from_knx_partial_to_knx
  (data : bytes) (l : list log_record) (body : KNXHIDReportBody.t H B) :
  KNXHIDReportBody.from_knx data true = (l, Ok body) ->
  KNXHIDReportBody.to_knx body = ret [] /\
  (forall b : B,
      KNXHIDReportBody.transfer_protocol_body body = Some b ->
      body_truthy b = true ->
      KNXHIDReportBody.length body = body_length b).
Proof.
  intros Hbody.
  destruct (report_body_from_knx_partial_no_header data l body Hbody) as [Hnone Hp].
  split; [ apply report_body_to_knx_no_header; exact Hnone | ].
  unfold KNXHIDReportBody.transfer_protocol_body, KNXHIDReportBody.length.
  intros b Hb Htb. destruct Hp as [Hp | Hp]; [ congruence | ].
  rewrite Hp, Hb. cbn [is_set andb]. rewrite Htb. reflexivity.
Qed.

(** X16: the 61 bytes of a start packet that survive the transfer protocol
    layer decode to a report body that encodes back to the same bytes. *)
Theorem report_body_decode_encode (data : bytes) :
  length data = 61%nat ->
  transfer_decodes_back (TH := TH) (TB := TB) data ->
  outcome (body <- KNXHIDReportBody.from_knx (TH := TH) (TB := TB) data false ;;
           KNXHIDReportBody.to_knx body) = Ok data.
Proof. apply report_body_decode_encode_outcome. Qed.

(** X17: a decoded frame is valid only if the buffer had exactly 64 bytes
    and both parts are valid; its header then has report id 1. *)
Theorem frame_from_knx_valid
  (data : bytes) (partial : bool) (l : list log_record)
  (f : KNXHIDFrame.t SequenceNumber PacketType H B) :
  KNXHIDFrame.from_knx data partial = (l, Ok f) ->
  KNXHIDFrame.is_valid f = true ->
  length data = 64%nat /\
  exists (h : KNXHIDReportHeader.t SequenceNumber PacketType)
         (body : KNXHIDReportBody.t H B),
    KNXHIDFrame.report_header f = Some h /\
    KNXHIDFrame.report_body f = Some body /\
    KNXHIDReportHeader.is_valid h = true /\
    KNXHIDReportHeader.report_id h = 1 /\
    KNXHIDReportBody.is_valid body = true.
Proof.
  unfold KNXHIDFrame.from_knx, KNXHIDFrame._init.
  destruct (if _ <? _ then _ else _) as [l0 [[] | e]]; [ | discriminate ].
  rewrite bind_Ok.
  destruct (KNXHIDReportHeader.from_knx (slice_to 3 data)) as [l1 [h | e]] eqn:Hh;
    [ | discriminate ].
  rewrite bind_Ok.
  destruct (KNXHIDReportBody.from_knx (slice_from 3 data) partial)
    as [l2 [body | e]] eqn:Hbody; [ | discriminate ].
  rewrite bind_Ok. cbn [ret logged outcome fst snd].
  intros Heq. injection Heq as _ <-.
  unfold KNXHIDFrame.is_valid, KNXHIDFrame.report_header, KNXHIDFrame.report_body.
  cbn [KNXHIDFrame._is_valid KNXHIDFrame._header KNXHIDFrame._body
       KNXHIDFrame.with_is_valid KNXHIDFrame.with_body KNXHIDFrame.with_header
       KNXHIDFrame.with_partial].
  intros Hv. apply andb_true_iff in Hv. destruct Hv as [Hvh Hvb].
  destruct (report_body_from_knx_valid_inv _ _ _ _ Hbody Hvb) as (Hlen & _).
  unfold slice_from in Hlen. rewrite length_skipn in Hlen.
  split; [ lia | ].
  exists h, body. repeat split; try assumption.
  apply (report_header_from_knx_valid_report_id _ _ _ Hh Hvh).
Qed.


(** X19: on more than 64 bytes whose packet info byte maps,
    [KNXHIDFrame.from_knx] logs no warning of its own; the body decoder
    refuses the surplus, so the frame is returned but is not valid. *)
Theorem frame_from_knx_over_64 (data : bytes) (partial : bool) (b1 : byte) :
  (64 < length data)%nat ->
  nth_error data 1 = Some b1 ->
  nibbles_map (SN := SN) (PT := PT) b1 = true ->
  exists f : KNXHIDFrame.t SequenceNumber PacketType H B,
    KNXHIDFrame.from_knx data partial =
      ([LogRecord ERROR (ReportBodyLength (length data - 3))], Ok f) /\
    KNXHIDFrame.is_valid f = false.
Proof.
  intros Hlen Hnth Hmap.
  destruct data as [ | b0 [ | b1' [ | b2 rest]]]; try (simpl in Hlen; lia).
  simpl in Hnth. injection Hnth as ->.
  destruct (nibbles_map_true b1 Hmap) as (sn & pt & Hsn & Hpt).
  assert (Hrest : length rest <> 61%nat) by (simpl in Hlen; lia).
  pose proof (report_body_from_knx_wrong_length (H := H) (B := B) rest partial Hrest)
    as Hbody.
  rewrite (frame_from_knx_mapped b0 b1 b2 rest partial sn pt _ _ Hsn Hpt Hbody).
  destruct (Z.ltb_spec (Z.of_nat (length (b0 :: b1 :: b2 :: rest))) 64) as [Hlt | _];
    [ cbn [length] in Hlt, Hlen; lia | ].
  eexists. split.
  - replace (length (b0 :: b1 :: b2 :: rest) - 3)%nat with (length rest)
      by (simpl; lia).
    reflexivity.
  - unfold KNXHIDFrame.is_valid. cbn. apply andb_false_r.
Qed.

End BodyFrameProperties.

Section FrameCompositions.
Context {SequenceNumber PacketType : Type}.
Context {SN : PyEnum SequenceNumber} {PT : PyEnum PacketType}.
Context {ProtocolID EMIID H B : Type}.
Context {TH : TransferHeader ProtocolID EMIID H} {TB : TransferBody B}.

(** The header a frame is built with. *)
Lemma frame_from_data_parts
  (data : KNXHIDFrame.KNXHIDFrameData SequenceNumber PacketType ProtocolID EMIID)
  (l : list log_record) (f : KNXHIDFrame.t SequenceNumber PacketType H B) :
  KNXHIDFrame.from_data data = (l, Ok f) ->
  exists body : KNXHIDReportBody.t H B,
    KNXHIDReportBody.from_data (KNXHIDFrame.data_hid_report_body_data data) = (l, Ok body) /\
    KNXHIDFrame._body f = Some body /\
    KNXHIDFrame._partial f =
      KNXHIDReportBody.data_partial (KNXHIDFrame.data_hid_report_body_data data) /\
    KNXHIDFrame._header f =
      Some {| KNXHIDReportHeader._report_id := 1;
              KNXHIDReportHeader._packet_info := Some (KNXHIDFrame.data_packet_info data);
              KNXHIDReportHeader._data_length :=
                if KNXHIDReportBody.length body <=? 61
                then KNXHIDReportBody.length body else 0;
              KNXHIDReportHeader._max_expected_data_length := 61;
              KNXHIDReportHeader._valid := (KNXHIDReportBody.length body <=? 61) |} /\
    KNXHIDFrame._is_valid f =
      (if KNXHIDReportBody.data_partial (KNXHIDFrame.data_hid_report_body_data data)
       then KNXHIDReportBody.is_valid body
       else (KNXHIDReportBody.length body <=? 61) && KNXHIDReportBody.is_valid body).
Proof.
  unfold KNXHIDFrame.from_data.
  destruct (KNXHIDReportBody.from_data _) as [l0 [body | e]]; [ | discriminate ].
  rewrite bind_Ok. unfold KNXHIDReportHeader.from_data, KNXHIDReportHeader.is_valid.
  cbn [KNXHIDReportHeader.data_data_length KNXHIDReportHeader.data_packet_info
       KNXHIDReportHeader._max_expected_data_length KNXHIDReportHeader.with_packet_info
       KNXHIDReportHeader.__init__].
  destruct (KNXHIDReportBody.data_partial (KNXHIDFrame.data_hid_report_body_data data));
    cbn [ret logged outcome fst snd]; rewrite app_nil_r; intros Heq;
    injection Heq as <- <-; exists body;
    destruct (KNXHIDReportBody.length body <=? 61); repeat split.
Qed.

(** X20: a frame built from construction data carries the given packet
    info, the flag of the body data and report id 1; its header is valid
    with the body's length as data length when that is at most 61, and is
    not valid with data length 0 otherwise. *)
Theorem frame_from_data_header
  (data : KNXHIDFrame.KNXHIDFrameData SequenceNumber PacketType ProtocolID EMIID)
  (l : list log_record) (f : KNXHIDFrame.t SequenceNumber PacketType H B) :
  KNXHIDFrame.from_data data = (l, Ok f) ->
  exists (h : KNXHIDReportHeader.t SequenceNumber PacketType)
         (body : KNXHIDReportBody.t H B),
    KNXHIDFrame.report_header f = Some h /\
    KNXHIDFrame.report_body f = Some body /\
    KNXHIDFrame._partial f =
      KNXHIDReportBody.data_partial (KNXHIDFrame.data_hid_report_body_data data) /\
    KNXHIDReportHeader.packet_info h = Some (KNXHIDFrame.data_packet_info data) /\
    KNXHIDReportHeader.report_id h = 1 /\
    KNXHIDReportHeader.is_valid h = (KNXHIDReportBody.length body <=? 61) /\
    KNXHIDReportHeader.data_length h =
      (if KNXHIDReportBody.length body <=? 61 then KNXHIDReportBody.length body else 0).
Proof.
  intros Hf.
  destruct (frame_from_data_parts data l f Hf) as (body & _ & Hb & Hp & Hh & _).
  eexists. exists body.
  split; [ exact Hh | ]. split; [ exact Hb | ]. split; [ exact Hp | ].
  repeat split.
Qed.

(** X21: a continuation frame built from construction data always has a
    valid header with data length 0, and is valid exactly when its report
    body is. *)
Theorem frame_from_data_partial_header
  (data : KNXHIDFrame.KNXHIDFrameData SequenceNumber PacketType ProtocolID EMIID)
  (l : list log_record) (f : KNXHIDFrame.t SequenceNumber PacketType H B) :
  KNXHIDReportBody.data_partial (KNXHIDFrame.data_hid_report_body_data data) = true ->
  KNXHIDFrame.from_data data = (l, Ok f) ->
  exists (h : KNXHIDReportHeader.t SequenceNumber PacketType)
         (body : KNXHIDReportBody.t H B),
    KNXHIDFrame.report_header f = Some h /\
    KNXHIDFrame.report_body f = Some body /\
    KNXHIDReportHeader.is_valid h = true /\
    KNXHIDReportHeader.data_length h = 0 /\
    KNXHIDFrame.is_valid f = KNXHIDReportBody.is_valid body.
Proof.
  intros Hpartial Hf.
  destruct (frame_from_data_parts data l f Hf) as (body & Hbody & Hb & _ & Hh & Hv).
  destruct (report_body_from_data_inv _ _ _ Hbody) as (b & _ & Hp & _ & Hshape).
  rewrite Hpartial in Hshape, Hv. destruct Hshape as [Hnone _].
  assert (Hlen : KNXHIDReportBody.length body = 0).
  { unfold KNXHIDReportBody.length. rewrite Hp, Hnone. reflexivity. }
  rewrite Hlen in Hh. eexists. exists body.
  split; [ exact Hh | ]. split; [ exact Hb | ].
  split; [ reflexivity | ]. split; [ reflexivity | exact Hv ].
Qed.


(** X23: 64 bytes with report id 1, a packet info byte that round-trips and
    a body that survives the transfer protocol layer decode to a frame that
    encodes back to the same 64 bytes, whatever the data length byte. *)
Theorem frame_decode_encode (b0 b1 b2 : byte) (rest : bytes) :
  int_of_byte b0 = 1 ->
  packet_byte_round_trips (SN := SN) (PT := PT) b1 ->
  length rest = 61%nat ->
  transfer_decodes_back (TH := TH) (TB := TB) rest ->
  outcome (f <- KNXHIDFrame.decode (SN := SN) (PT := PT) (TH := TH) (TB := TB)
                  (b0 :: b1 :: b2 :: rest) ;;
           KNXHIDFrame.to_knx f) = Ok (b0 :: b1 :: b2 :: rest).
Proof.
  intros Hid (sn & pt & Hlsn & Hlpt & Hvs & Hvp & Hsn & Hpt) Hlen Htr.
  pose proof (report_body_decode_encode_outcome rest Hlen Htr) as Hbody.
  rewrite outcome_bind in Hbody.
  destruct (KNXHIDReportBody.from_knx rest false) as [lb [body | e]] eqn:Hdec;
    cbn [outcome snd] in Hbody; [ | discriminate ].
  unfold KNXHIDFrame.decode.
  rewrite (frame_from_knx_mapped b0 b1 b2 rest false sn pt lb body Hlsn Hlpt Hdec).
  rewrite outcome_bind. cbn [outcome snd].
  unfold KNXHIDFrame.to_knx. cbn [KNXHIDFrame._header KNXHIDFrame._body].
  unfold KNXHIDReportHeader.to_knx.
  cbn [KNXHIDReportHeader._valid KNXHIDReportHeader._packet_info
       KNXHIDReportHeader._report_id KNXHIDReportHeader._data_length].
  rewrite Hid. change (1 =? 1) with true. cbv iota.
  rewrite (packet_info_to_knx_of_byte b1 sn pt Hvs Hvp Hsn Hpt), bind_ret.
  rewrite <- Hid, !pack_B_int_of_byte, !bind_ret.
  rewrite outcome_bind, Hbody. reflexivity.
Qed.

End FrameCompositions.

(** ** The further properties on concrete reports *)

(** X1 at sequence number 1 and a start-and-end packet. *)
Lemma packet_info_encode_decode_witness :
  exists b : byte,
    PacketInfo.to_knx Knx.first_start_and_end = ret [b] /\
    PacketInfo.from_knx [b] = ret Knx.first_start_and_end.
Proof.
  apply (packet_info_encode_decode Knx.FIRST_PACKET Knx.START_AND_END).
  unfold packet_info_round_trips. simpl. repeat split; lia.
Defined.

(** X2 at the byte [0x13]. *)
Lemma packet_info_decode_encode_witness :
  (p <- (PacketInfo.from_knx [x13] : py Knx.PacketInfo) ;; PacketInfo.to_knx p) = ret [x13].
Proof.
  apply (packet_info_decode_encode (SN := Knx.SequenceNumber_enum)
           (PT := Knx.PacketType_enum) x13).
  exists Knx.FIRST_PACKET, Knx.START_AND_END. repeat split.
Defined.

(** X3 at two bytes. *)
Lemma packet_info_from_knx_not_one_byte_witness :
  exists p : Knx.PacketInfo,
    PacketInfo.from_knx [x13; x13] = ([LogRecord ERROR (PacketInfoLength 2)], Ok p) /\
    PacketInfo.sequence_number p = None /\
    PacketInfo.packet_type p = None /\
    PacketInfo.to_knx p = ret [].
Proof.
  apply (packet_info_from_knx_not_one_byte (SN := Knx.SequenceNumber_enum)
           (PT := Knx.PacketType_enum) [x13; x13]).
  simpl. lia.
Defined.

(** X4 at the initial header and at the header of a body of 18 bytes. *)
Lemma report_header_to_knx_size_witness :
  KNXHIDReportHeader.to_knx (KNXHIDReportHeader.__init__ : Knx.ReportHeader) = ret [] /\
  length [x01; x13; x12] = 3%nat.
Proof.
  split.
  - apply (proj1 (report_header_to_knx_size
                    (KNXHIDReportHeader.__init__ : Knx.ReportHeader))).
    reflexivity.
  - apply (proj2 (report_header_to_knx_size
                    (KNXHIDReportHeader.from_data
                       {| KNXHIDReportHeader.data_packet_info := Knx.first_start_and_end;
                          KNXHIDReportHeader.data_data_length := 18 |}))
             [x01; x13; x12]); reflexivity.
Defined.

(** X5 at a body of 18 bytes. *)
Lemma report_header_encode_decode_witness :
  exists bs : bytes,
    KNXHIDReportHeader.to_knx
      (KNXHIDReportHeader.from_data
         {| KNXHIDReportHeader.data_packet_info := Knx.first_start_and_end;
            KNXHIDReportHeader.data_data_length := 18 |}) = ret bs /\
    length bs = 3%nat /\
    KNXHIDReportHeader.from_knx bs =
      ret (KNXHIDReportHeader.from_data
             {| KNXHIDReportHeader.data_packet_info := Knx.first_start_and_end;
                KNXHIDReportHeader.data_data_length := 18 |}).
Proof.
  apply (report_header_encode_decode Knx.FIRST_PACKET Knx.START_AND_END 18).
  - unfold packet_info_round_trips. simpl. repeat split; lia.
  - lia.
Defined.

(** X6 at the header [01 13 12]. *)
Lemma report_header_decode_encode_witness :
  (h <- (KNXHIDReportHeader.from_knx [x01; x13; x12] : py Knx.ReportHeader) ;;
   KNXHIDReportHeader.to_knx h) = ret [x01; x13; x12].
Proof.
  apply (report_header_decode_encode (SN := Knx.SequenceNumber_enum)
           (PT := Knx.PacketType_enum) x01 x13 x12).
  exists Knx.FIRST_PACKET, Knx.START_AND_END. repeat split.
Defined.


(** X8 at the 64 bytes of a whole report. *)
Lemma report_header_from_knx_over_61_witness :
  exists h : Knx.ReportHeader,
    KNXHIDReportHeader.from_knx Knx.single_packet_bytes =
      ([LogRecord ERROR (ReportHeaderLength 64)], Ok h) /\
    KNXHIDReportHeader.is_valid h = false /\
    KNXHIDReportHeader.report_id h = 1 /\
    KNXHIDReportHeader.packet_info h = None /\
    KNXHIDReportHeader.data_length h = 0 /\
    KNXHIDReportHeader.to_knx h = ret [].
Proof.
  apply (report_header_from_knx_over_61 (SN := Knx.SequenceNumber_enum)
           (PT := Knx.PacketType_enum) Knx.single_packet_bytes).
  simpl. lia.
Defined.

(** X9 at a body of 62 bytes. *)
Lemma report_header_from_data_over_61_witness :
  KNXHIDReportHeader.is_valid
    (KNXHIDReportHeader.from_data
       {| KNXHIDReportHeader.data_packet_info := Knx.first_start_and_end;
          KNXHIDReportHeader.data_data_length := 62 |}) = false /\
  KNXHIDReportHeader.data_length
    (KNXHIDReportHeader.from_data
       {| KNXHIDReportHeader.data_packet_info := Knx.first_start_and_end;
          KNXHIDReportHeader.data_data_length := 62 |}) = 0 /\
  KNXHIDReportHeader.packet_info
    (KNXHIDReportHeader.from_data
       {| KNXHIDReportHeader.data_packet_info := Knx.first_start_and_end;
          KNXHIDReportHeader.data_data_length := 62 |}) = Some Knx.first_start_and_end /\
  KNXHIDReportHeader.to_knx
    (KNXHIDReportHeader.from_data
       {| KNXHIDReportHeader.data_packet_info := Knx.first_start_and_end;
          KNXHIDReportHeader.data_data_length := 62 |}) = ret [].
Proof.
  apply (report_header_from_data_over_61 Knx.first_start_and_end 62). lia.
Defined.

(** X10 at the length -1. *)
Lemma report_header_from_data_negative_witness :
  KNXHIDReportHeader.is_valid
    (KNXHIDReportHeader.from_data
       {| KNXHIDReportHeader.data_packet_info := Knx.first_start_and_end;
          KNXHIDReportHeader.data_data_length := -1 |}) = true /\
  KNXHIDReportHeader.data_length
    (KNXHIDReportHeader.from_data
       {| KNXHIDReportHeader.data_packet_info := Knx.first_start_and_end;
          KNXHIDReportHeader.data_data_length := -1 |}) = -1 /\
  outcome
    (KNXHIDReportHeader.to_knx
       (KNXHIDReportHeader.from_data
          {| KNXHIDReportHeader.data_packet_info := Knx.first_start_and_end;
             KNXHIDReportHeader.data_data_length := -1 |})) = Raise StructError.
Proof.
  apply (report_header_from_data_negative Knx.first_start_and_end (-1) [x13]).
  - lia.
  - reflexivity.
Defined.

(** X11 at report id 2. *)
Lemma report_header_set_report_id_witness :
  exists (h' : Knx.ReportHeader) (bs : bytes) (h'' : Knx.ReportHeader),
    KNXHIDReportHeader.set_report_id
      (KNXHIDReportHeader.from_data
         {| KNXHIDReportHeader.data_packet_info := Knx.first_start_and_end;
            KNXHIDReportHeader.data_data_length := 18 |}) 2 =
      ([LogRecord WARNING ReportIdNotOne], Ok h') /\
    KNXHIDReportHeader.is_valid h' = true /\
    KNXHIDReportHeader.report_id h' = 2 /\
    KNXHIDReportHeader.to_knx h' = ret bs /\
    length bs = 3%nat /\
    KNXHIDReportHeader.from_knx bs = ret h'' /\
    KNXHIDReportHeader.report_id h'' = 2 /\
    KNXHIDReportHeader.is_valid h'' = false.
Proof.
  apply (report_header_set_report_id Knx.FIRST_PACKET Knx.START_AND_END 18 2).
  - unfold packet_info_round_trips. simpl. repeat split; lia.
  - lia.
  - lia.
  - lia.
Defined.

(** X12 at a body of 18 bytes. *)
Lemma report_header_unset_packet_info_witness :
  exists lb : byte,
    KNXHIDReportHeader.is_valid
      (KNXHIDReportHeader.from_data
         {| KNXHIDReportHeader.data_packet_info := (PacketInfo.__init__ : Knx.PacketInfo);
            KNXHIDReportHeader.data_data_length := 18 |}) = true /\
    KNXHIDReportHeader.to_knx
      (KNXHIDReportHeader.from_data
         {| KNXHIDReportHeader.data_packet_info := (PacketInfo.__init__ : Knx.PacketInfo);
            KNXHIDReportHeader.data_data_length := 18 |}) = ret [x01; x00; lb] /\
    int_of_byte lb = 18 /\
    (KNXHIDReportHeader.from_knx [x01; x00; lb] : py Knx.ReportHeader) = raise ValueError.
Proof.
  destruct (report_header_unset_packet_info (SN := Knx.SequenceNumber_enum)
              (PT := Knx.PacketType_enum) 18 ltac:(lia)) as (lb & Hv & Henc & Hlen & Hdec).
  exists lb. split; [ exact Hv | ]. split; [ exact Henc | ].
  split; [ exact Hlen | ]. apply Hdec. reflexivity.
Defined.

(** X13 at the body data of the continuation packet. *)
Lemma report_body_from_data_partial_witness :
  exists body : Knx.ReportBody,
    KNXHIDReportBody.from_data
      (KNXHIDFrame.data_hid_report_body_data Knx.continuation_packet) = ret body /\
    (KNXHIDReportBody.transfer_protocol_header body = None /\
     KNXHIDReportBody.length body = 0 /\
     KNXHIDReportBody.to_knx body = ret [] /\
     exists b : Knx.TransferProtocolBody,
       KNXHIDReportBody.transfer_protocol_body body = Some b /\
       KNXHIDReportBody.is_valid body = body_is_valid b).
Proof.
  eexists. split; [ reflexivity | ].
  eapply (report_body_from_data_partial
            (KNXHIDFrame.data_hid_report_body_data Knx.continuation_packet));
    reflexivity.
Defined.

(** X14 at the body bytes of the single-packet telegram. *)
Lemma report_body_from_knx_valid_witness :
  length Knx.single_packet_body_bytes = 61%nat /\
  exists body : Knx.ReportBody,
    KNXHIDReportBody.from_knx Knx.single_packet_body_bytes false = ret body /\
    KNXHIDReportBody.is_valid body = true.
Proof.
  split.
  - eapply (report_body_from_knx_valid (TH := Knx.transfer_header)
              (TB := Knx.transfer_body) Knx.single_packet_body_bytes false);
      reflexivity.
  - eexists. split; reflexivity.
Defined.

(** X15 at the same bytes read as a continuation. *)
Lemma report_body_from_knx_partial_to_knx_witness :
  exists body : Knx.ReportBody,
    KNXHIDReportBody.from_knx Knx.single_packet_body_bytes true = ret body /\
    (KNXHIDReportBody.to_knx body = ret [] /\
     (forall b : Knx.TransferProtocolBody,
         KNXHIDReportBody.transfer_protocol_body body = Some b ->
         body_truthy b = true ->
         KNXHIDReportBody.length body = body_length b)).
Proof.
  eexists. split; [ reflexivity | ].
  eapply (report_body_from_knx_partial_to_knx (TH := Knx.transfer_header)
            (TB := Knx.transfer_body) Knx.single_packet_body_bytes).
  reflexivity.
Defined.

(** X16 at the body bytes of the single-packet telegram. *)
Lemma report_body_decode_encode_witness :
  outcome (body <- (KNXHIDReportBody.from_knx Knx.single_packet_body_bytes false
                    : py Knx.ReportBody) ;;
           KNXHIDReportBody.to_knx body) = Ok Knx.single_packet_body_bytes.
Proof.
  apply (report_body_decode_encode (TH := Knx.transfer_header)
           (TB := Knx.transfer_body) Knx.single_packet_body_bytes).
  - reflexivity.
  - eexists. eexists. repeat (split; [ reflexivity | ]). reflexivity.
Defined.

(** X17 at the 64 bytes of the single-packet telegram. *)
Lemma frame_from_knx_valid_witness :
  length Knx.single_packet_bytes = 64%nat /\
  exists f : Knx.Frame,
    KNXHIDFrame.from_knx Knx.single_packet_bytes false = ret f /\
    KNXHIDFrame.is_valid f = true.
Proof.
  split.
  - eapply (frame_from_knx_valid (SN := Knx.SequenceNumber_enum)
              (PT := Knx.PacketType_enum) (TH := Knx.transfer_header)
              (TB := Knx.transfer_body) Knx.single_packet_bytes false);
      reflexivity.
  - eexists. split; reflexivity.
Defined.


(** X19 at the single-packet telegram followed by one more byte. *)
Lemma frame_from_knx_over_64_witness :
  exists f : Knx.Frame,
    KNXHIDFrame.from_knx (Knx.single_packet_bytes ++ [x00]) false =
      ([LogRecord ERROR (ReportBodyLength 62)], Ok f) /\
    KNXHIDFrame.is_valid f = false.
Proof.
  apply (frame_from_knx_over_64 (SN := Knx.SequenceNumber_enum)
           (PT := Knx.PacketType_enum) (TH := Knx.transfer_header)
           (TB := Knx.transfer_body) (Knx.single_packet_bytes ++ [x00]) false x13).
  - simpl. lia.
  - reflexivity.
  - reflexivity.
Defined.

(** X20 at the single-packet telegram: data length 18. *)
Lemma frame_from_data_header_witness :
  exists f : Knx.Frame,
    KNXHIDFrame.from_data Knx.single_packet = ret f /\
    exists (h : Knx.ReportHeader) (body : Knx.ReportBody),
      KNXHIDFrame.report_header f = Some h /\
      KNXHIDFrame.report_body f = Some body /\
      KNXHIDFrame._partial f = false /\
      KNXHIDReportHeader.packet_info h = Some Knx.first_start_and_end /\
      KNXHIDReportHeader.report_id h = 1 /\
      KNXHIDReportHeader.is_valid h = (KNXHIDReportBody.length body <=? 61) /\
      KNXHIDReportHeader.data_length h =
        (if KNXHIDReportBody.length body <=? 61 then KNXHIDReportBody.length body else 0).
Proof.
  eexists. split; [ reflexivity | ].
  eapply (frame_from_data_header Knx.single_packet). reflexivity.
Defined.

(** X21 at the continuation packet: data length 0. *)
Lemma frame_from_data_partial_header_witness :
  exists f : Knx.Frame,
    KNXHIDFrame.from_data Knx.continuation_packet = ret f /\
    exists (h : Knx.ReportHeader) (body : Knx.ReportBody),
      KNXHIDFrame.report_header f = Some h /\
      KNXHIDFrame.report_body f = Some body /\
      KNXHIDReportHeader.is_valid h = true /\
      KNXHIDReportHeader.data_length h = 0 /\
      KNXHIDFrame.is_valid f = KNXHIDReportBody.is_valid body.
Proof.
  eexists. split; [ reflexivity | ].
  eapply (frame_from_data_partial_header Knx.continuation_packet); reflexivity.
Defined.


(** X23 at the 64 bytes of the single-packet telegram. *)
Lemma frame_decode_encode_witness :
  outcome (f <- (KNXHIDFrame.decode Knx.single_packet_bytes : py Knx.Frame) ;;
           KNXHIDFrame.to_knx f) = Ok Knx.single_packet_bytes.
Proof.
  apply (frame_decode_encode (SN := Knx.SequenceNumber_enum)
           (PT := Knx.PacketType_enum) (TH := Knx.transfer_header)
           (TB := Knx.transfer_body) x01 x13 x12 Knx.single_packet_body_bytes).
  - reflexivity.
  - exists Knx.FIRST_PACKET, Knx.START_AND_END. repeat split.
  - reflexivity.
  - eexists. eexists. repeat (split; [ reflexivity | ]). reflexivity.
Defined.
